(** * Open-WebUI pipelines: Azure DeepSeek R1 and Azure OpenAI o1-mini

    A shallow embedding of the two pipelines of the repository,

      - src/Azure_DeepSeekR1.py           (module [DeepSeekR1])
      - src/Azure_Openai_Chatgpt_o1mini.py (module [O1Mini])

    and the properties of their [pipe] entry points.

    Python values are modelled by [pyval]; a Python [dict] with string keys
    is a [gmap string pyval].  Exceptions are explicit ([outcome]), and the
    two effects a call to [pipe] has on the outside (mutation of the
    caller's [body] dict and calls of the client that reaches the provider:
    [client.complete], [requests.post]) are threaded through a small
    state-and-exception monad over a [world]. *)

From stdpp Require Import gmap strings list fin_maps pretty.
From Stdlib Require Import ZArith Ascii String.

Open Scope Z_scope.

(** ** Python values and builtins *)

Module Py.

(** JSON-like Python data.  A string is a sequence of characters with code
    point below 256.  A finite float [m * 2^e] is [PFloat m e]. *)
#[warnings="-register-all"]
Inductive pyval : Type :=
| PNone
| PBool (b : bool)
| PInt (z : Z)
| PFloat (m e : Z)
| PStr (s : string)
| PList (l : list pyval)
| PDict (d : gmap string pyval).

(** [bool(v)]: the truth value tested by [if v]. *)
Definition py_truthy (v : pyval) : bool :=
  match v with
  | PNone => false
  | PBool b => b
  | PInt z => negb (z =? 0)
  | PFloat m _ => negb (m =? 0)
  | PStr s => negb (String.eqb s "")
  | PList l => negb (bool_decide (l = []))
  | PDict d => negb (bool_decide (d = ∅))
  end.

(** [isinstance(v, str)] *)
Definition isinstance_str (v : pyval) : bool :=
  match v with PStr _ => true | _ => false end.

(** [v == s] for a string literal [s]. *)
Definition py_eq_str (v : pyval) (s : string) : bool :=
  match v with PStr s' => String.eqb s' s | _ => false end.

(** [type(v).__name__] *)
Definition py_type_name (v : pyval) : string :=
  match v with
  | PNone => "NoneType"
  | PBool _ => "bool"
  | PInt _ => "int"
  | PFloat _ _ => "float"
  | PStr _ => "str"
  | PList _ => "list"
  | PDict _ => "dict"
  end.

(** Number of constructors of a value. *)
Fixpoint pysize (v : pyval) : nat :=
  match v with
  | PList l => S (foldr (λ x n, pysize x + n)%nat 0%nat l)
  | PDict d => S (map_fold (λ _ x n, pysize x + n)%nat 0%nat d)
  | _ => 1%nat
  end.

(** *** Exceptions *)

(** The exception classes the two pipelines can meet.  All of them derive
    from [Exception]. *)
Inductive exn_class : Type :=
| KeyError
| TypeError
| AttributeError
| UnboundLocalError
| ValueError
| ConnectionError        (* requests.ConnectionError *)
| Timeout                (* requests.Timeout *)
| HTTPError              (* requests.HTTPError *)
| JSONDecodeError        (* requests.JSONDecodeError *)
| HttpResponseError      (* azure.core.exceptions.HttpResponseError *)
| ServiceRequestError    (* azure.core.exceptions.ServiceRequestError *)
| OtherException.        (* any other subclass of Exception *)

(** An exception object: its class and the text [str(e)] gives. *)
Record exn : Type := Exn { exn_cls : exn_class; exn_str : string }.

(** [isinstance(e, requests.RequestException)].  requests' JSONDecodeError
    derives from InvalidJSONError, a RequestException, and from
    json.JSONDecodeError, a ValueError. *)
Definition isinstance_RequestException (e : exn) : bool :=
  match exn_cls e with
  | ConnectionError | Timeout | HTTPError | JSONDecodeError => true
  | _ => false
  end.

(** [isinstance(e, ValueError)] *)
Definition isinstance_ValueError (e : exn) : bool :=
  match exn_cls e with
  | ValueError | JSONDecodeError => true
  | _ => false
  end.

(** The result of running a piece of Python: a value or a raised exception. *)
Inductive outcome (A : Type) : Type :=
| Return (a : A)
| Raise (e : exn).
Arguments Return {A} a.
Arguments Raise {A} e.

Definition obind {A B} (o : outcome A) (k : A → outcome B) : outcome B :=
  match o with
  | Return a => k a
  | Raise e => Raise e
  end.

(** [v[k]] for a string key [k]: a [KeyError] on a dict without the key, a
    [TypeError] on a value that is not a dict ([str(KeyError(k))] is the
    repr of the key). *)
Definition py_getitem (v : pyval) (k : string) : outcome pyval :=
  match v with
  | PDict d =>
      match d !! k with
      | Some x => Return x
      | None => Raise (Exn KeyError ("'" +:+ k +:+ "'"))
      end
  | PStr _ => Raise (Exn TypeError "string indices must be integers, not 'str'")
  | PList _ => Raise (Exn TypeError "list indices must be integers or slices, not str")
  | _ => Raise (Exn TypeError ("'" +:+ py_type_name v +:+ "' object is not subscriptable"))
  end.

(** [v.get(k, dflt)]: only a dict has the method. *)
Definition py_get_method (v : pyval) (k : string) (dflt : pyval) : outcome pyval :=
  match v with
  | PDict d => Return (default dflt (d !! k))
  | _ => Raise (Exn AttributeError
                  ("'" +:+ py_type_name v +:+ "' object has no attribute 'get'"))
  end.

(** *** json.dumps of an error envelope *)

Definition hex_digit (n : nat) : ascii :=
  default "f"%char (String.get n "0123456789abcdef").

Definition dquote : ascii := "034"%char.
Definition backslash : ascii := "092"%char.

(** The escape of one character by [json.dumps] (ensure_ascii): the short
    escapes, and a [u00XX] escape for every other character outside the
    printable range 0x20..0x7e. *)
Definition json_escape_char (c : ascii) : string :=
  let n := nat_of_ascii c in
  if (n =? 34)%nat then String backslash (String dquote "")
  else if (n =? 92)%nat then String backslash (String backslash "")
  else if (n =? 10)%nat then String backslash "n"
  else if (n =? 13)%nat then String backslash "r"
  else if (n =? 9)%nat then String backslash "t"
  else if (n =? 8)%nat then String backslash "b"
  else if (n =? 12)%nat then String backslash "f"
  else if ((32 <=? n) && (n <=? 126))%nat then String c ""
  else String backslash
         (String "u" (String "0" (String "0"
            (String (hex_digit (n / 16)) (String (hex_digit (n mod 16)) ""))))).

Fixpoint json_escape (s : string) : string :=
  match s with
  | EmptyString => ""
  | String c s' => json_escape_char c +:+ json_escape s'
  end.

(** [json.dumps(s)] for a string [s]. *)
Definition json_dumps_str (s : string) : string :=
  String dquote (json_escape s +:+ String dquote "").

(** [json.dumps({"error": msg})] *)
Definition json_dumps_error (msg : string) : string :=
  "{" +:+ json_dumps_str "error" +:+ ": " +:+ json_dumps_str msg +:+ "}".

(** *** What [pipe] returns *)

(** Either an ordinary value (a string, a parsed JSON document) or a lazy
    sequence of lines, given by the lines it will yield. *)
Inductive pyresult : Type :=
| RVal (v : pyval)
| RIter (lines : list string).

(** *** The world outside a call *)

(** The caller's [body] dict, which [pipe] receives by reference, and the
    log of the calls the pipeline made of its client ([client.complete],
    [requests.post]), oldest first, each by the request it was given.  What
    the client puts on the wire for one call (nothing when it refuses the
    endpoint, several posts under a retry policy) is the client's matter and
    not recorded. *)
Record world (Req : Type) : Type := World {
  caller_body : gmap string pyval;
  net_log : list Req
}.
Arguments World {Req} _ _.
Arguments caller_body {Req} _.
Arguments net_log {Req} _.

(** A computation that may change the world and may raise. *)
Definition M (Req A : Type) : Type := world Req → outcome A * world Req.

Definition ret {Req A} (a : A) : M Req A := λ w, (Return a, w).

Definition raise {Req A} (e : exn) : M Req A := λ w, (Raise e, w).

Definition bind {Req A B} (c : M Req A) (k : A → M Req B) : M Req B :=
  λ w, match c w with
       | (Return a, w') => k a w'
       | (Raise e, w') => (Raise e, w')
       end.

Definition lift {Req A} (o : outcome A) : M Req A := λ w, (o, w).

(** [try: c  except Exception as e: h e].  What [c] did to the world before
    it raised stays done. *)
Definition try_except {Req A} (c : M Req A) (h : exn → M Req A) : M Req A :=
  λ w, match c w with
       | (Return a, w') => (Return a, w')
       | (Raise e, w') => h e w'
       end.

(** [try: c  except C as e: h e] for the class tested by [is_c]: any other
    exception goes on to the caller. *)
Definition try_except_when {Req A} (is_c : exn → bool)
    (c : M Req A) (h : exn → M Req A) : M Req A :=
  try_except c (λ e, if is_c e then h e else raise e).

(** Run [c] and hand its outcome over as a value. *)
Definition attempt {Req A} (c : M Req A) : M Req (outcome A) :=
  λ w, let '(o, w') := c w in (Return o, w').

Definition get_body {Req} : M Req (gmap string pyval) :=
  λ w, (Return (caller_body w), w).

Definition set_body {Req} (b : gmap string pyval) : M Req unit :=
  λ w, (Return tt, World b (net_log w)).

(** One call of the client: it is logged, and the client gives its answer
    or its fault. *)
Definition net_call {Req A} (provider : Req → outcome A) (r : Req) : M Req A :=
  λ w, (provider r, World (caller_body w) (net_log w ++ [r])).

End Py.

Export Py.

Notation "'let!' x ':=' c 'in' k" := (bind c (λ x, k))
  (at level 10, x pattern, c at level 100, k at level 200).

(** ** src/Azure_DeepSeekR1.py *)

Module DeepSeekR1.

(** The message classes of azure.ai.inference.models the pipeline builds. *)
Inductive azure_message : Type :=
| SystemMessage (content : pyval)
| UserMessage (content : pyval)
| AssistantMessage (content : pyval).

(** The [for message in messages] loop of [pop_system_message], with its two
    variables [system_message] and [updated_messages]. *)
Fixpoint pop_system_message_loop (messages : list pyval)
    (system_message : pyval) (updated_messages : list pyval)
    : outcome (pyval * list pyval) :=
  match messages with
  | [] => Return (system_message, updated_messages)
  | message :: rest =>
      obind (py_getitem message "role") (λ role,
        if py_eq_str role "system" then
          obind (py_getitem message "content") (λ content,
            pop_system_message_loop rest content updated_messages)
        else
          pop_system_message_loop rest system_message
            (updated_messages ++ [message]))
  end.

Definition pop_system_message (messages : list pyval)
    : outcome (pyval * list pyval) :=
  pop_system_message_loop messages (PStr "") [].

(** [class Valves] *)
Record Valves : Type := {
  AZURE_INFERENCE_CREDENTIAL : string;
  AZURE_INFERENCE_ENDPOINT : string;
  MODEL_ID : string
}.

(** The client object: what [ChatCompletionsClient(endpoint=, credential=)]
    was built from. *)
Record ChatCompletionsClient : Type := {
  endpoint : string;
  credential : string
}.

Record Pipeline : Type := {
  type : string;
  id : string;
  name : string;
  valves : Valves;
  client : ChatCompletionsClient
}.

(** [os.getenv(key, dflt)] in the environment [env]. *)
Definition getenv (env : gmap string string) (key dflt : string) : string :=
  default dflt (env !! key).

Definition update_client (self : Pipeline) : Pipeline :=
  {| type := type self; id := id self; name := name self;
     valves := valves self;
     client := {| endpoint := AZURE_INFERENCE_ENDPOINT (valves self);
                  credential := AZURE_INFERENCE_CREDENTIAL (valves self) |} |}.

(** [Pipeline.__init__] *)
Definition init (env : gmap string string) : Pipeline :=
  let v := {| AZURE_INFERENCE_CREDENTIAL :=
                getenv env "AZURE_INFERENCE_CREDENTIAL"
                  "your-azure-inference-key-here";
              AZURE_INFERENCE_ENDPOINT :=
                getenv env "AZURE_INFERENCE_ENDPOINT"
                  "your-azure-inference-endpoint-here";
              MODEL_ID := getenv env "MODEL_ID" "DeepSeekR1" |} in
  update_client
    {| type := "manifold"; id := "DeepSeekR1-azure";
       name := "DeepSeekR1-azure/"; valves := v;
       client := {| endpoint := ""; credential := "" |} |}.

(** [on_valves_updated] *)
Definition on_valves_updated (self : Pipeline) : Pipeline := update_client self.

(** The provider's answers, with the fields the pipeline reads.  The
    objects are built from the JSON of the answer without validation: the
    content is whatever value the answer holds ([PNone] for a null or
    missing content), and the message of a choice may be missing ([None]).
    An answer whose [choices] is null reads like one with no choice. *)
Record ChatResponseMessage : Type := { message_content : pyval }.
Record ChatChoice : Type := { message : option ChatResponseMessage }.
Record ChatCompletions : Type := { choices : list ChatChoice }.

(** A streamed update, likewise: the delta of a choice may be missing
    ([None]), and its content is whatever value the update holds. *)
Record StreamingChatResponseMessageUpdate : Type := {
  delta_content : pyval
}.
Record StreamingChatChoiceUpdate : Type := {
  delta : option StreamingChatResponseMessageUpdate
}.
Record StreamingChatCompletionsUpdate : Type := {
  update_choices : list StreamingChatChoiceUpdate
}.

(** [None.content] *)
Definition none_has_no_content : exn :=
  Exn AttributeError "'NoneType' object has no attribute 'content'".

(** The fault of [s += v] for a string [s] and a [v] that is no string. *)
Definition cannot_concatenate (v : pyval) : exn :=
  Exn TypeError
    ("can only concatenate str (not " +:+ String dquote (py_type_name v)
     +:+ String dquote ") to str").

(** One call [client.complete(messages=, model=, [stream=True,] **params)]. *)
Record complete_request : Type := {
  req_endpoint : string;
  req_credential : string;
  req_messages : list azure_message;
  req_model : string;
  req_stream : bool;
  req_params : gmap string pyval
}.

(** What [client.complete] gives for a call: an answer or a fault, of the
    client itself (which refuses an endpoint that is no URL before anything
    is sent) or of the remote side; with [stream=True] the answer is a
    sequence of updates, each of which arrives or faults when the loop asks
    for it. *)
Record provider : Type := {
  complete : complete_request → outcome ChatCompletions;
  complete_stream :
    complete_request → outcome (list (outcome StreamingChatCompletionsUpdate))
}.

(** The [for update in response] loop of [stream_response]. *)
Fixpoint stream_loop (complete_response : string)
    (response : list (outcome StreamingChatCompletionsUpdate))
    : outcome string :=
  match response with
  | [] => Return complete_response
  | Raise e :: _ => Raise e
  | Return update :: rest =>
      match update_choices update with
      | choice :: _ =>
          match delta choice with
          | Some d =>
              if py_truthy (delta_content d) then
                match delta_content d with
                | PStr fragment =>
                    stream_loop (complete_response +:+ fragment) rest
                | other => Raise (cannot_concatenate other)
                end
              else stream_loop complete_response rest
          | None => Raise none_has_no_content
          end
      | [] => stream_loop complete_response rest
      end
  end.

(** The list comprehension of [pipe]: one typed message per entry. *)
Definition to_azure_message (msg : pyval) : outcome azure_message :=
  obind (py_getitem msg "role") (λ role,
    if py_eq_str role "user" then
      obind (py_getitem msg "content") (λ c, Return (UserMessage c))
    else
      obind (py_getitem msg "role") (λ role',
        if py_eq_str role' "system" then
          obind (py_getitem msg "content") (λ c, Return (SystemMessage c))
        else
          obind (py_getitem msg "content") (λ c, Return (AssistantMessage c)))).

Fixpoint map_outcome {A B} (f : A → outcome B) (l : list A) : outcome (list B) :=
  match l with
  | [] => Return []
  | x :: l' =>
      obind (f x) (λ y, obind (map_outcome f l') (λ ys, Return (y :: ys)))
  end.

(** Lines 109-119 of [pipe]: the messages handed to the provider. *)
Definition prepare_messages (messages : list pyval) : outcome (list azure_message) :=
  obind (pop_system_message messages) (λ '(system_message, messages),
    let DeepSeekR1_messages :=
      if py_truthy system_message then [SystemMessage system_message] else [] in
    obind (map_outcome to_azure_message messages) (λ rest,
      Return (DeepSeekR1_messages ++ rest))).

Definition allowed_params : gset string :=
  {[ "temperature"; "max_tokens"; "presence_penalty"; "frequency_penalty";
     "top_p" ]}.

(** [{k: v for k, v in body.items() if k in allowed_params}] *)
Definition filter_body (body : gmap string pyval) : gmap string pyval :=
  filter (λ kv, kv.1 ∈ allowed_params) body.

(** [body.pop(key, None)] on the caller's dict. *)
Definition body_pop (key : string) : M complete_request pyval :=
  let! body := get_body in
  let! _ := set_body (delete key body) in
  ret (default PNone (body !! key)).

(** [for key in keys: body.pop(key, None)] *)
Fixpoint pop_keys (keys : list string) : M complete_request unit :=
  match keys with
  | [] => ret tt
  | key :: keys' => let! _ := body_pop key in pop_keys keys'
  end.

Section Provider.

Variable remote : provider.

Definition request_of (self : Pipeline) (messages : list azure_message)
    (stream : bool) (params : gmap string pyval) : complete_request :=
  {| req_endpoint := endpoint (client self);
     req_credential := credential (client self);
     req_messages := messages;
     req_model := MODEL_ID (valves self);
     req_stream := stream;
     req_params := params |}.

(** The handler shared by the three [try] blocks:
    [return json.dumps({"error": str(e)})]. *)
Definition error_envelope (e : exn) : M complete_request pyresult :=
  ret (RVal (PStr (json_dumps_error (exn_str e)))).

Definition stream_response (self : Pipeline)
    (DeepSeekR1_messages : list azure_message) (params : gmap string pyval)
    : M complete_request pyresult :=
  try_except
    (let! response :=
       net_call (complete_stream remote)
         (request_of self DeepSeekR1_messages true params) in
     let! complete_response := lift (stream_loop "" response) in
     ret (RVal (PStr complete_response)))
    error_envelope.

Definition get_completion (self : Pipeline)
    (DeepSeekR1_messages : list azure_message) (params : gmap string pyval)
    : M complete_request pyresult :=
  try_except
    (let! response :=
       net_call (complete remote)
         (request_of self DeepSeekR1_messages false params) in
     match choices response with
     | choice :: _ =>
         match message choice with
         | Some m => ret (RVal (message_content m))
         | None => raise none_has_no_content
         end
     | [] => ret (RVal (PStr ""))
     end)
    error_envelope.

(** [Pipeline.pipe].  The [logger.debug] lines write to the log only;
    [json.dumps] of JSON-like data does not raise. *)
Definition pipe (self : Pipeline) (user_message model_id : string)
    (messages : list pyval) : M complete_request pyresult :=
  try_except
    (let! _ := pop_keys ["user"; "chat_id"; "title"] in
     let! DeepSeekR1_messages := lift (prepare_messages messages) in
     let! body := get_body in
     let filtered_body := filter_body body in
     let is_stream := default (PBool false) (body !! "stream") in
     if py_truthy is_stream
     then stream_response self DeepSeekR1_messages filtered_body
     else get_completion self DeepSeekR1_messages filtered_body)
    error_envelope.

End Provider.

End DeepSeekR1.

(** ** src/Azure_Openai_Chatgpt_o1mini.py *)

Module O1Mini.

(** [class Valves] *)
Record Valves : Type := {
  AZURE_OPENAI_API_KEY : string;
  AZURE_OPENAI_ENDPOINT : string;
  AZURE_OPENAI_DEPLOYMENT_NAME : string;
  AZURE_OPENAI_API_VERSION : string
}.

Record Pipeline : Type := {
  name : string;
  valves : Valves
}.

Definition getenv (env : gmap string string) (key dflt : string) : string :=
  default dflt (env !! key).

(** [Pipeline.__init__] *)
Definition init (env : gmap string string) : Pipeline :=
  {| name := "Azure o1-mini";
     valves :=
       {| AZURE_OPENAI_API_KEY :=
            getenv env "AZURE_OPENAI_API_KEY" "your-azure-openai-api-key-here";
          AZURE_OPENAI_ENDPOINT :=
            getenv env "AZURE_OPENAI_ENDPOINT" "https://xxx.openai.azure.com";
          AZURE_OPENAI_DEPLOYMENT_NAME :=
            getenv env "AZURE_OPENAI_DEPLOYMENT_NAME" "o1-mini";
          AZURE_OPENAI_API_VERSION :=
            getenv env "AZURE_OPENAI_API_VERSION" "2024-08-01-preview" |} |}.

(** One call [requests.post(url=, json=, headers=, stream=)]. *)
Record post_request : Type := {
  post_url : string;
  post_json : gmap string pyval;
  post_headers : gmap string string;
  post_stream : pyval
}.

(** A [requests.Response], by what the pipeline reads of it: the status
    line, what [json()] gives, [text], and the lines [iter_lines()] yields. *)
Record Response : Type := {
  status_code : Z;
  reason : string;
  url : string;
  json : outcome pyval;
  text : string;
  iter_lines : list string
}.

(** [Response.raise_for_status] of requests. *)
Definition raise_for_status (r : Response) : outcome unit :=
  if (400 <=? status_code r) && (status_code r <? 500) then
    Raise (Exn HTTPError (pretty (status_code r) +:+ " Client Error: "
                          +:+ reason r +:+ " for url: " +:+ url r))
  else if (500 <=? status_code r) && (status_code r <? 600) then
    Raise (Exn HTTPError (pretty (status_code r) +:+ " Server Error: "
                          +:+ reason r +:+ " for url: " +:+ url r))
  else Return tt.

Definition allowed_params : gset string :=
  {[ "messages"; "temperature"; "role"; "content"; "contentPart";
     "contentPartImage"; "enhancements"; "data_sources"; "n"; "stream";
     "stop"; "max_tokens"; "presence_penalty"; "frequency_penalty";
     "logit_bias"; "user"; "function_call"; "functions"; "tools";
     "tool_choice"; "top_p"; "log_probs"; "top_logprobs"; "response_format";
     "seed" ]}.

(** [{k: v for k, v in body.items() if k in allowed_params}] *)
Definition filter_body (body : gmap string pyval) : gmap string pyval :=
  filter (λ kv, kv.1 ∈ allowed_params) body.

Section Pipe.

(** [str(v)] for a value that is not a string: the text depends on the
    insertion order of dicts and on the formatting of floats, which the
    value model does not record. *)
Variable py_str : pyval → string.

(** The remote side of [requests.post]: a response or a fault. *)
Variable requests_post : post_request → outcome Response.

(** [f"{v}"] *)
Definition py_format (v : pyval) : string :=
  match v with PStr s => s | _ => py_str v end.

(** Lines 72-74: remap the [user] field of the caller's dict. *)
Definition remap_user : M post_request unit :=
  let! body := get_body in
  match body !! "user" with
  | Some user =>
      if negb (isinstance_str user) then
        let! new_user := lift (py_get_method user "id" (PStr (py_str user))) in
        set_body (<["user" := new_user]> body)
      else ret tt
  | None => ret tt
  end.

(** The [except requests.RequestException as e] handler.  The local
    variable [response] is bound only if [requests.post] returned: [None]
    stands for the unbound variable, whose read raises. *)
Definition on_request_exception (response : option Response) (e : exn)
    : M post_request pyresult :=
  let error_message := "Request failed: " +:+ exn_str e in
  match response with
  | None =>
      raise (Exn UnboundLocalError
        "cannot access local variable 'response' where it is not associated with a value")
  | Some response =>
      let! error_message :=
        try_except_when isinstance_ValueError
          (let! error_details := lift (json response) in
           ret (error_message +:+ " | Details: " +:+ py_format error_details))
          (λ _, ret (error_message +:+ " | Response Text: " +:+ text response)) in
      ret (RVal (PStr ("Error: " +:+ error_message)))
  end.

Definition headers_of (self : Pipeline) : gmap string string :=
  {[ "api-key" := AZURE_OPENAI_API_KEY (valves self);
     "Content-Type" := "application/json" ]}.

Definition url_of (self : Pipeline) : string :=
  AZURE_OPENAI_ENDPOINT (valves self) +:+ "/openai/deployments/"
  +:+ AZURE_OPENAI_DEPLOYMENT_NAME (valves self) +:+ "/chat/completions"
  +:+ "?api-version=" +:+ AZURE_OPENAI_API_VERSION (valves self).

Definition request_of (self : Pipeline) (filtered_body : gmap string pyval)
    : post_request :=
  {| post_url := url_of self;
     post_json := filtered_body;
     post_headers := headers_of self;
     post_stream := default (PBool false) (filtered_body !! "stream") |}.

(** [Pipeline.pipe].  The [print] lines write to the console only.  The
    [try] statement is split at [requests.post]: a fault of the post reaches
    the handler with [response] unbound, a later one with it bound. *)
Definition pipe (self : Pipeline) (user_message model_id : string)
    (messages : list pyval) : M post_request pyresult :=
  let! _ := remap_user in
  let! body := get_body in
  let filtered_body := filter_body body in
  let! posted := attempt (net_call requests_post (request_of self filtered_body)) in
  match posted with
  | Raise e =>
      if isinstance_RequestException e
      then on_request_exception None e
      else raise e
  | Return response =>
      try_except_when isinstance_RequestException
        (let! _ := lift (raise_for_status response) in
         if py_truthy (default PNone (filtered_body !! "stream"))
         then ret (RIter (iter_lines response))
         else
           let! parsed := lift (json response) in
           ret (RVal parsed))
        (on_request_exception (Some response))
  end.

End Pipe.

End O1Mini.

(** ** Vocabulary of the properties *)

(** *** Chat messages *)

Module Chat.

(** A message dict that has the two keys every consumer reads, [role] and
    [content], and possibly others. *)
Record raw_message : Type := {
  role : pyval;
  content : pyval;
  extra : gmap string pyval
}.

Definition to_py (m : raw_message) : pyval :=
  PDict (<["role" := role m]> (<["content" := content m]> (extra m))).

Definition is_system (m : raw_message) : bool := py_eq_str (role m) "system".

Definition non_system (m : raw_message) : bool := negb (is_system m).

(** The typed message the comprehension of [DeepSeekR1.pipe] builds. *)
Definition typed_message (m : raw_message) : DeepSeekR1.azure_message :=
  if py_eq_str (role m) "user" then DeepSeekR1.UserMessage (content m)
  else if py_eq_str (role m) "system" then DeepSeekR1.SystemMessage (content m)
  else DeepSeekR1.AssistantMessage (content m).

Definition is_SystemMessage (m : DeepSeekR1.azure_message) : bool :=
  match m with DeepSeekR1.SystemMessage _ => true | _ => false end.

(** The content of the last system entry of [ms], or [init] without one. *)
Definition last_system_content (init : pyval) (ms : list raw_message) : pyval :=
  foldl (λ acc m, if is_system m then content m else acc) init ms.

Definition message (r c : string) : raw_message :=
  {| role := PStr r; content := PStr c; extra := ∅ |}.

End Chat.

(** *** Configuration *)

(** The placeholder sentinel of an unset credential or endpoint:
    [your-...-here]. *)
Definition is_placeholder (s : string) : bool :=
  String.eqb (String.substring 0 5 s) "your-"
  && String.eqb (String.substring (String.length s - 5) 5 s) "-here".

(** *** What the caller of the DeepSeekR1 pipeline reads off an answer *)

Definition error_text (e : exn) : string := json_dumps_error (exn_str e).

Definition first_choice_value (r : DeepSeekR1.ChatCompletions) : pyval :=
  match DeepSeekR1.choices r with
  | c :: _ =>
      match DeepSeekR1.message c with
      | Some m => DeepSeekR1.message_content m
      | None => PStr (error_text DeepSeekR1.none_has_no_content)
      end
  | [] => PStr ""
  end.

Definition blocking_value (o : outcome DeepSeekR1.ChatCompletions) : pyval :=
  match o with
  | Return r => first_choice_value r
  | Raise e => PStr (error_text e)
  end.

Definition streaming_text
    (o : outcome (list (outcome DeepSeekR1.StreamingChatCompletionsUpdate)))
    : string :=
  match o with
  | Return updates =>
      match DeepSeekR1.stream_loop "" updates with
      | Return s => s
      | Raise e => error_text e
      end
  | Raise e => error_text e
  end.

(** The text fragment of a streamed update: the content of the delta of its
    first choice, when the update has a choice with a delta whose content is
    a string that is not empty. *)
Definition fragment_of (u : DeepSeekR1.StreamingChatCompletionsUpdate)
    : option string :=
  match DeepSeekR1.update_choices u with
  | [] => None
  | c :: _ =>
      match DeepSeekR1.delta c with
      | Some d =>
          match DeepSeekR1.delta_content d with
          | PStr s => if String.eqb s "" then None else Some s
          | _ => None
          end
      | None => None
      end
  end.

(** An update the loop can read: it has no choice, or its first choice has a
    delta whose content is a string or is falsy (null, in particular). *)
Definition readable (u : DeepSeekR1.StreamingChatCompletionsUpdate) : bool :=
  match DeepSeekR1.update_choices u with
  | [] => true
  | c :: _ =>
      match DeepSeekR1.delta c with
      | Some d =>
          match DeepSeekR1.delta_content d with
          | PStr _ => true
          | other => negb (py_truthy other)
          end
      | None => false
      end
  end.

Definition fragments (us : list DeepSeekR1.StreamingChatCompletionsUpdate)
    : list string :=
  omap fragment_of us.

(** [d1 + ... + dn] *)
Definition join (ds : list string) : string := foldr String.append "" ds.

(** Whether the call streams: [body.get("stream", False)]. *)
Definition streams (body : gmap string pyval) : bool :=
  py_truthy (default (PBool false) (body !! "stream")).

(** *** The caller's dict after the call *)

(** The body once [user], [chat_id] and [title] were popped, in that order. *)
Definition stripped (body : gmap string pyval) : gmap string pyval :=
  delete "title" (delete "chat_id" (delete "user" body)).

(** The replacement of an object-valued [user]: its [id], or the string
    form of the whole object. *)
Definition user_id (py_str : pyval → string) (u : gmap string pyval) : pyval :=
  default (PStr (py_str (PDict u))) (u !! "id").

(** The body once an object-valued [user] was replaced. *)
Definition remapped (py_str : pyval → string) (body : gmap string pyval)
    : gmap string pyval :=
  match body !! "user" with
  | Some (PDict u) => <["user" := user_id py_str u]> body
  | _ => body
  end.

(** [user] is absent, a string or an object. *)
Definition remap_ok (body : gmap string pyval) : bool :=
  match body !! "user" with
  | None | Some (PStr _) | Some (PDict _) => true
  | _ => false
  end.

(** *** Sample data *)

Module Sample.

(** The request of the test at the end of src/Azure_DeepSeekR1.py. *)
Definition main_messages : list pyval :=
  [Chat.to_py (Chat.message "user" "How many languages are in the world?")].

Definition main_body : gmap string pyval :=
  {[ "temperature" := PFloat 1 (-1);
     "max_tokens" := PInt 150;
     "presence_penalty" := PFloat 3602879701896397 (-55);
     "frequency_penalty" := PFloat 3602879701896397 (-52);
     "stream" := PBool true ]}.

Definition update (fragment : string) : DeepSeekR1.StreamingChatCompletionsUpdate :=
  {| DeepSeekR1.update_choices :=
       [ {| DeepSeekR1.delta :=
              Some {| DeepSeekR1.delta_content := PStr fragment |} |} ] |}.

Definition completion (text : string) : DeepSeekR1.ChatCompletions :=
  {| DeepSeekR1.choices :=
       [ {| DeepSeekR1.message :=
              Some {| DeepSeekR1.message_content := PStr text |} |} ] |}.

(** A provider that answers every request the same way. *)
Definition mock : DeepSeekR1.provider :=
  {| DeepSeekR1.complete := λ _, Return (completion "About 7000.");
     DeepSeekR1.complete_stream := λ _,
       Return [Return (update "There "); Return (update "are ");
               Return {| DeepSeekR1.update_choices := [] |};
               Return (update "about "); Return (update "");
               Return (update "7000.")] |}.

(** A body as a front-end sends it, with session keys and a user object. *)
Definition session_user : gmap string pyval :=
  {[ "id" := PStr "u1"; "name" := PStr "Ann" ]}.

Definition session_body : gmap string pyval :=
  {[ "chat_id" := PStr "c1";
     "title" := PStr "Languages";
     "user" := PDict session_user;
     "temperature" := PFloat 1 (-1) ]}.

Definition sample_str (v : pyval) : string := "<" +:+ py_type_name v +:+ ">".

(** An unreachable endpoint. *)
Definition unreachable : O1Mini.post_request → outcome O1Mini.Response :=
  λ _, Raise (Exn ConnectionError "Max retries exceeded").

Definition ok_response (parsed : pyval) (lines : list string) : O1Mini.Response :=
  {| O1Mini.status_code := 200; O1Mini.reason := "OK"; O1Mini.url := "";
     O1Mini.json := Return parsed; O1Mini.text := "";
     O1Mini.iter_lines := lines |}.

Definition empty_world {Req} (body : gmap string pyval) : world Req :=
  World body [].

(** A provider that refuses every request. *)
Definition refusing : DeepSeekR1.provider :=
  {| DeepSeekR1.complete := λ _, Raise (Exn HttpResponseError "401 Unauthorized");
     DeepSeekR1.complete_stream := λ _,
       Raise (Exn HttpResponseError "401 Unauthorized") |}.

(** A provider whose stream breaks after two updates. *)
Definition breaking : DeepSeekR1.provider :=
  {| DeepSeekR1.complete := λ _, Return (completion "About 7000.");
     DeepSeekR1.complete_stream := λ _,
       Return (map Return [update "There "; update "are "]
               ++ Raise (Exn ServiceRequestError "connection reset")
               :: [Return (update "7000.")]) |}.

(** A response with an error status. *)
Definition error_response (code : Z) (parsed : outcome pyval) (body : string)
    : O1Mini.Response :=
  {| O1Mini.status_code := code; O1Mini.reason := "Unauthorized";
     O1Mini.url := "https://xxx.openai.azure.com";
     O1Mini.json := parsed; O1Mini.text := body;
     O1Mini.iter_lines := [] |}.

(** A provider whose stream holds a choice without a delta. *)
Definition dropping : DeepSeekR1.provider :=
  {| DeepSeekR1.complete := λ _, Return (completion "About 7000.");
     DeepSeekR1.complete_stream := λ _,
       Return [Return (update "There ");
               Return {| DeepSeekR1.update_choices :=
                           [ {| DeepSeekR1.delta := None |} ] |};
               Return (update "are")] |}.

(** A client that refuses its endpoint before anything is sent. *)
Definition no_url : DeepSeekR1.provider :=
  {| DeepSeekR1.complete := λ _,
       Raise (Exn OtherException "Invalid URL: No scheme supplied");
     DeepSeekR1.complete_stream := λ _,
       Raise (Exn OtherException "Invalid URL: No scheme supplied") |}.

(** A provider that answers with a null content. *)
Definition null_content : DeepSeekR1.provider :=
  {| DeepSeekR1.complete := λ _,
       Return {| DeepSeekR1.choices :=
                   [ {| DeepSeekR1.message :=
                          Some {| DeepSeekR1.message_content := PNone |} |} ] |};
     DeepSeekR1.complete_stream := λ _, Return [] |}.

(** An environment that sets the three variables of the DeepSeekR1 valves. *)
Definition configured_env : gmap string string :=
  {[ "AZURE_INFERENCE_ENDPOINT" := "https://r1.example";
     "AZURE_INFERENCE_CREDENTIAL" := "secret";
     "MODEL_ID" := "R1" ]}.

(** A pipeline whose valves were changed after its client was built. *)
Definition stale_pipeline : DeepSeekR1.Pipeline :=
  {| DeepSeekR1.type := "manifold";
     DeepSeekR1.id := "DeepSeekR1-azure";
     DeepSeekR1.name := "DeepSeekR1-azure/";
     DeepSeekR1.valves :=
       {| DeepSeekR1.AZURE_INFERENCE_CREDENTIAL := "k2";
          DeepSeekR1.AZURE_INFERENCE_ENDPOINT := "https://new";
          DeepSeekR1.MODEL_ID := "R1" |};
     DeepSeekR1.client :=
       {| DeepSeekR1.endpoint := "https://old";
          DeepSeekR1.credential := "k1" |} |}.

End Sample.

(** *** Message entries as the loops read them *)

(** The entry has a role, and it is not [system]: the entries
    [pop_system_message] keeps. *)
Definition other_role (m : pyval) : bool :=
  match py_getitem m "role" with
  | Return r => negb (py_eq_str r "system")
  | Raise _ => false
  end.

(** The entry is a dict with the keys [role] and [content]. *)
Definition well_formed (m : pyval) : bool :=
  match m with
  | PDict d =>
      bool_decide (is_Some (d !! "role")) && bool_decide (is_Some (d !! "content"))
  | _ => false
  end.

(** ** Properties *)

(** *** Message dicts *)

Section Messages.

Import Chat.

Lemma getitem_role (m : raw_message) :
  py_getitem (to_py m) "role" = Return (role m).
Proof. unfold to_py, py_getitem. by rewrite lookup_insert_eq. Qed.

Lemma getitem_content (m : raw_message) :
  py_getitem (to_py m) "content" = Return (content m).
Proof.
  unfold to_py, py_getitem.
  rewrite lookup_insert_ne by done. by rewrite lookup_insert_eq.
Qed.

(** Every dict with a role and a content is the dict of a [raw_message]. *)
Lemma to_py_covers (d : gmap string pyval) (r c : pyval) :
  d !! "role" = Some r → d !! "content" = Some c →
  PDict d = to_py {| role := r; content := c; extra := d |}.
Proof.
  intros Hr Hc. unfold to_py. simpl.
  rewrite (insert_id d "content" c) by done.
  by rewrite (insert_id d "role" r).
Qed.

Lemma to_py_role_inj (m1 m2 : raw_message) :
  to_py m1 = to_py m2 → role m1 = role m2.
Proof.
  intros H.
  assert (Return (role m1) = Return (role m2)) as E
    by (rewrite <- !getitem_role; by rewrite H).
  by inversion E.
Qed.

Lemma pop_system_message_loop_spec (ms : list raw_message)
    (system_message : pyval) (updated : list pyval) :
  DeepSeekR1.pop_system_message_loop (map to_py ms) system_message updated
  = Return (last_system_content system_message ms,
            updated ++ map to_py (filter (λ m, non_system m = true) ms)).
Proof.
  revert system_message updated.
  induction ms as [|m ms IH]; intros system_message updated.
  - simpl. by rewrite app_nil_r.
  - rewrite map_cons. cbn [DeepSeekR1.pop_system_message_loop].
    rewrite getitem_role. cbn [obind].
    rewrite filter_cons. unfold last_system_content. cbn [foldl].
    fold (last_system_content (if is_system m then content m else system_message) ms).
    change (py_eq_str (role m) "system") with (is_system m).
    destruct (is_system m) eqn:Hsys.
    + rewrite getitem_content. cbn [obind]. rewrite IH.
      rewrite decide_False; [done|]. unfold non_system. by rewrite Hsys.
    + rewrite IH. rewrite decide_True by (unfold non_system; by rewrite Hsys).
      by rewrite map_cons, <- app_assoc.
Qed.

Lemma pop_system_message_spec (ms : list raw_message) :
  DeepSeekR1.pop_system_message (map to_py ms)
  = Return (last_system_content (PStr "") ms,
            map to_py (filter (λ m, non_system m = true) ms)).
Proof. unfold DeepSeekR1.pop_system_message. by rewrite pop_system_message_loop_spec. Qed.

Lemma to_azure_message_spec (m : raw_message) :
  DeepSeekR1.to_azure_message (to_py m) = Return (typed_message m).
Proof.
  unfold DeepSeekR1.to_azure_message, typed_message.
  rewrite getitem_role. cbn [obind].
  destruct (py_eq_str (role m) "user").
  - by rewrite getitem_content.
  - cbn [obind].
    destruct (py_eq_str (role m) "system"); by rewrite getitem_content.
Qed.

Lemma map_outcome_typed (ms : list raw_message) :
  DeepSeekR1.map_outcome DeepSeekR1.to_azure_message (map to_py ms)
  = Return (map typed_message ms).
Proof.
  induction ms as [|m ms IH]; [done|].
  rewrite map_cons. cbn [DeepSeekR1.map_outcome].
  rewrite to_azure_message_spec. cbn [obind]. by rewrite IH.
Qed.

Lemma prepare_messages_spec (ms : list raw_message) :
  DeepSeekR1.prepare_messages (map to_py ms)
  = Return ((if py_truthy (last_system_content (PStr "") ms)
             then [DeepSeekR1.SystemMessage (last_system_content (PStr "") ms)]
             else [])
            ++ map typed_message (filter (λ m, non_system m = true) ms)).
Proof.
  unfold DeepSeekR1.prepare_messages.
  rewrite pop_system_message_spec. cbn [obind].
  by rewrite map_outcome_typed.
Qed.

Lemma last_system_content_app (init : pyval) (l1 l2 : list raw_message) :
  last_system_content init (l1 ++ l2)
  = last_system_content (last_system_content init l1) l2.
Proof. unfold last_system_content. by rewrite foldl_app. Qed.

Lemma last_system_content_none (init : pyval) (l : list raw_message) :
  Forall (λ m, non_system m = true) l → last_system_content init l = init.
Proof.
  induction 1 as [|m l Hm _ IH]; [done|].
  unfold last_system_content in *. simpl.
  unfold non_system in Hm. apply negb_true_iff in Hm. by rewrite Hm.
Qed.

Lemma last_system_content_last (init : pyval) (l1 l3 : list raw_message)
    (b : raw_message) :
  is_system b = true → Forall (λ m, non_system m = true) l3 →
  last_system_content init (l1 ++ b :: l3) = content b.
Proof.
  intros Hb Hl3. rewrite last_system_content_app.
  unfold last_system_content at 1. simpl. rewrite Hb.
  by apply last_system_content_none.
Qed.

Lemma filter_non_system_id (l : list raw_message) :
  Forall (λ m, non_system m = true) l →
  filter (λ m, non_system m = true) l = l.
Proof.
  induction 1 as [|m l Hm _ IH]; [done|].
  rewrite filter_cons. destruct (decide (non_system m = true)); [|done].
  by rewrite IH.
Qed.

Lemma typed_non_system (m : raw_message) :
  non_system m = true → is_SystemMessage (typed_message m) = false.
Proof.
  unfold non_system, is_system, typed_message. intros H.
  apply negb_true_iff in H. rewrite H.
  by destruct (py_eq_str (role m) "user").
Qed.

Lemma typed_conversation_no_system (l : list raw_message) :
  Forall (λ t, is_SystemMessage t = false)
    (map typed_message (filter (λ m, non_system m = true) l)).
Proof.
  apply Forall_map, Forall_forall. intros m Hm.
  apply list_elem_of_filter in Hm as [Hm _]. by apply typed_non_system.
Qed.

(** With [b] the last system entry: its content is hoisted when it is not
    empty, and the rest is the entries of other roles. *)
Lemma prepare_messages_last_system (l1 l3 : list raw_message) (b : raw_message) :
  is_system b = true →
  Forall (λ m, non_system m = true) l3 →
  DeepSeekR1.prepare_messages (map to_py (l1 ++ b :: l3))
  = Return ((if py_truthy (content b)
             then [DeepSeekR1.SystemMessage (content b)] else [])
            ++ map typed_message
                 (filter (λ m, non_system m = true) (l1 ++ l3))).
Proof.
  intros Hb Hl3. rewrite prepare_messages_spec.
  rewrite (last_system_content_last _ _ _ _ Hb Hl3).
  do 3 f_equal. rewrite !filter_app, filter_cons.
  rewrite decide_False; [done|].
  unfold non_system. by rewrite Hb.
Qed.

End Messages.

(** *** The DeepSeekR1 pipeline, step by step *)

Section DeepSeekR1_facts.

Variable remote : DeepSeekR1.provider.

Lemma stripped_lookup (body : gmap string pyval) (k : string) :
  k ≠ "user" → k ≠ "chat_id" → k ≠ "title" → stripped body !! k = body !! k.
Proof. intros. unfold stripped. by rewrite !lookup_delete_ne. Qed.

Lemma stripped_lookup_None (body : gmap string pyval) (k : string) :
  k = "user" ∨ k = "chat_id" ∨ k = "title" → stripped body !! k = None.
Proof.
  unfold stripped. intros [-> | [-> | ->]].
  - rewrite !lookup_delete_ne by done. apply lookup_delete_eq.
  - rewrite lookup_delete_ne by done. apply lookup_delete_eq.
  - apply lookup_delete_eq.
Qed.

Lemma pop_keys_spec (w : world DeepSeekR1.complete_request) :
  DeepSeekR1.pop_keys ["user"; "chat_id"; "title"] w
  = (Return tt, World (stripped (caller_body w)) (net_log w)).
Proof. reflexivity. Qed.

Lemma get_completion_spec (self : DeepSeekR1.Pipeline)
    (dm : list DeepSeekR1.azure_message) (params : gmap string pyval)
    (w : world DeepSeekR1.complete_request) :
  let req := DeepSeekR1.request_of self dm false params in
  DeepSeekR1.get_completion remote self dm params w
  = (Return (RVal (blocking_value (DeepSeekR1.complete remote req))),
     World (caller_body w) (net_log w ++ [req])).
Proof.
  intros req.
  unfold DeepSeekR1.get_completion, try_except, bind, net_call, blocking_value,
    first_choice_value, DeepSeekR1.error_envelope, ret, raise.
  fold req. destruct (DeepSeekR1.complete remote req) as [r|e]; [|done].
  destruct (DeepSeekR1.choices r) as [|c cs]; [done|].
  by destruct (DeepSeekR1.message c).
Qed.

Lemma stream_response_spec (self : DeepSeekR1.Pipeline)
    (dm : list DeepSeekR1.azure_message) (params : gmap string pyval)
    (w : world DeepSeekR1.complete_request) :
  let req := DeepSeekR1.request_of self dm true params in
  DeepSeekR1.stream_response remote self dm params w
  = (Return (RVal (PStr (streaming_text (DeepSeekR1.complete_stream remote req)))),
     World (caller_body w) (net_log w ++ [req])).
Proof.
  intros req.
  unfold DeepSeekR1.stream_response, try_except, bind, net_call, lift,
    streaming_text, DeepSeekR1.error_envelope, ret.
  fold req. destruct (DeepSeekR1.complete_stream remote req) as [us|e]; [|done].
  by destruct (DeepSeekR1.stream_loop "" us).
Qed.

Lemma pipe_spec_failed (self : DeepSeekR1.Pipeline) (um mid : string)
    (msgs : list pyval) (w : world DeepSeekR1.complete_request) (e : exn) :
  DeepSeekR1.prepare_messages msgs = Raise e →
  DeepSeekR1.pipe remote self um mid msgs w
  = (Return (RVal (PStr (error_text e))),
     World (stripped (caller_body w)) (net_log w)).
Proof.
  intros He. unfold DeepSeekR1.pipe, try_except, bind.
  rewrite pop_keys_spec. unfold lift. by rewrite He.
Qed.

Lemma pipe_spec (self : DeepSeekR1.Pipeline) (um mid : string)
    (msgs : list pyval) (w : world DeepSeekR1.complete_request)
    (dm : list DeepSeekR1.azure_message) :
  DeepSeekR1.prepare_messages msgs = Return dm →
  let body := caller_body w in
  let req := DeepSeekR1.request_of self dm (streams body)
               (DeepSeekR1.filter_body (stripped body)) in
  DeepSeekR1.pipe remote self um mid msgs w
  = (Return (RVal
       (if streams body
        then PStr (streaming_text (DeepSeekR1.complete_stream remote req))
        else blocking_value (DeepSeekR1.complete remote req))),
     World (stripped body) (net_log w ++ [req])).
Proof.
  intros Hdm body req. subst req.
  unfold DeepSeekR1.pipe, try_except, bind.
  rewrite pop_keys_spec. unfold lift. rewrite Hdm.
  unfold get_body. cbn [caller_body net_log].
  rewrite (stripped_lookup (caller_body w) "stream") by done.
  fold body. fold (streams body).
  destruct (streams body).
  - by rewrite stream_response_spec.
  - by rewrite get_completion_spec.
Qed.


(** The caller's dict after the call, whatever the call was given. *)
Lemma pipe_body_after (self : DeepSeekR1.Pipeline) (um mid : string)
    (msgs : list pyval) (w : world DeepSeekR1.complete_request) :
  caller_body (snd (DeepSeekR1.pipe remote self um mid msgs w))
  = stripped (caller_body w).
Proof.
  destruct (DeepSeekR1.prepare_messages msgs) as [dm|e] eqn:Hp.
  - by rewrite (pipe_spec _ _ _ _ _ _ Hp).
  - by rewrite (pipe_spec_failed _ _ _ _ _ _ Hp).
Qed.

End DeepSeekR1_facts.

(** *** The aggregation loop *)

Lemma append_assoc (s1 s2 s3 : string) :
  (s1 +:+ s2) +:+ s3 = s1 +:+ (s2 +:+ s3).
Proof.
  induction s1 as [|c s1 IH]; [done|].
  change (String c ((s1 +:+ s2) +:+ s3) = String c (s1 +:+ s2 +:+ s3)).
  by rewrite IH.
Qed.

Lemma append_empty_r (s : string) : s +:+ "" = s.
Proof.
  induction s as [|c s IH]; [done|].
  change (String c (s +:+ "") = String c s). by rewrite IH.
Qed.

Lemma fragments_cons (u : DeepSeekR1.StreamingChatCompletionsUpdate)
    (us : list DeepSeekR1.StreamingChatCompletionsUpdate) :
  fragments (u :: us)
  = match fragment_of u with
    | Some s => s :: fragments us
    | None => fragments us
    end.
Proof. unfold fragments. simpl. by destruct (fragment_of u). Qed.

(** The loop appends to what it was given the fragments of the updates, in
    the order of arrival. *)
Lemma stream_loop_spec (us : list DeepSeekR1.StreamingChatCompletionsUpdate)
    (acc : string) :
  Forall (λ u, readable u = true) us →
  DeepSeekR1.stream_loop acc (map Return us)
  = Return (acc +:+ join (fragments us)).
Proof.
  intros Hus. revert acc. induction Hus as [|u us Hu _ IH]; intros acc.
  - simpl. by rewrite append_empty_r.
  - rewrite map_cons, fragments_cons.
    cbn [DeepSeekR1.stream_loop]. unfold fragment_of. unfold readable in Hu.
    destruct (DeepSeekR1.update_choices u) as [|c cs]; [apply IH|].
    destruct (DeepSeekR1.delta c) as [d|]; [|done].
    destruct (DeepSeekR1.delta_content d) as [| | | |s| |] eqn:Hd;
      try (apply negb_true_iff in Hu; rewrite Hu; apply IH).
    cbn [py_truthy].
    destruct (String.eqb s "") eqn:Hs; cbn [negb]; [apply IH|].
    rewrite IH.
    change (join (s :: fragments us)) with (s +:+ join (fragments us)).
    by rewrite append_assoc.
Qed.

(** An update that the loop cannot read ends the loop in a fault of its
    own, after readable ones. *)
Lemma stream_loop_unreadable (us : list DeepSeekR1.StreamingChatCompletionsUpdate)
    (u : DeepSeekR1.StreamingChatCompletionsUpdate)
    (rest : list (outcome DeepSeekR1.StreamingChatCompletionsUpdate))
    (acc : string) :
  Forall (λ u, readable u = true) us → readable u = false →
  ∃ e, DeepSeekR1.stream_loop acc (map Return us ++ Return u :: rest) = Raise e
       ∧ (exn_cls e = AttributeError ∨ exn_cls e = TypeError).
Proof.
  intros Hus Hu. revert acc. induction Hus as [|u' us Hu' _ IH]; intros acc.
  - cbn [map app DeepSeekR1.stream_loop]. unfold readable in Hu.
    destruct (DeepSeekR1.update_choices u) as [|c cs]; [done|].
    destruct (DeepSeekR1.delta c) as [d|]; [|eexists; split; [done|by left]].
    destruct (DeepSeekR1.delta_content d) as [| | | |s| |] eqn:Hd; try done;
      apply negb_false_iff in Hu; rewrite Hu;
      (eexists; split; [done|by right]).
  - rewrite map_cons. cbn [app DeepSeekR1.stream_loop]. unfold readable in Hu'.
    destruct (DeepSeekR1.update_choices u') as [|c cs]; [apply IH|].
    destruct (DeepSeekR1.delta c) as [d|]; [|done].
    destruct (DeepSeekR1.delta_content d) as [| | | |s| |] eqn:Hd;
      try (apply negb_true_iff in Hu'; rewrite Hu'; apply IH).
    destruct (py_truthy (PStr s)); apply IH.
Qed.

(** *** The o1-mini pipeline, step by step *)

Section O1Mini_facts.

Variable py_str : pyval → string.
Variable requests_post : O1Mini.post_request → outcome O1Mini.Response.

Lemma o1_filter_lookup (body : gmap string pyval) (k : string) :
  k ∈ O1Mini.allowed_params → O1Mini.filter_body body !! k = body !! k.
Proof.
  intros Hk. unfold O1Mini.filter_body. apply option_eq. intros x.
  rewrite map_lookup_filter_Some. split; [by intros [? _]|by split].
Qed.

Lemma o1_filter_lookup_None (body : gmap string pyval) (k : string) :
  k ∉ O1Mini.allowed_params → O1Mini.filter_body body !! k = None.
Proof.
  intros Hk. unfold O1Mini.filter_body.
  apply map_lookup_filter_None. right. intros x _. exact Hk.
Qed.

Lemma remapped_lookup (body : gmap string pyval) (k : string) :
  k ≠ "user" → remapped py_str body !! k = body !! k.
Proof.
  intros Hk. unfold remapped.
  destruct (body !! "user") as [[]|]; try done.
  by rewrite lookup_insert_ne.
Qed.

Lemma remap_user_spec (w : world O1Mini.post_request) :
  remap_ok (caller_body w) = true →
  O1Mini.remap_user py_str w
  = (Return tt, World (remapped py_str (caller_body w)) (net_log w)).
Proof.
  destruct w as [body log]. cbn [caller_body net_log].
  unfold O1Mini.remap_user, bind, get_body, remap_ok, remapped.
  cbn [caller_body net_log].
  by destruct (body !! "user") as [[]|].
Qed.

(** A [user] that is neither a string nor an object has no [get]. *)
Lemma remap_user_fault (w : world O1Mini.post_request) (u : pyval) :
  caller_body w !! "user" = Some u → remap_ok (caller_body w) = false →
  O1Mini.remap_user py_str w
  = (Raise (Exn AttributeError
       ("'" +:+ py_type_name u +:+ "' object has no attribute 'get'")), w).
Proof.
  intros Hu. unfold O1Mini.remap_user, bind, get_body, remap_ok.
  rewrite Hu. by destruct u.
Qed.

(** The world after a call that got past the remapping: the request was
    posted once, however it ended. *)
Lemma o1_pipe_world (self : O1Mini.Pipeline) (um mid : string)
    (msgs : list pyval) (w : world O1Mini.post_request) :
  remap_ok (caller_body w) = true →
  snd (O1Mini.pipe py_str requests_post self um mid msgs w)
  = World (remapped py_str (caller_body w))
      (net_log w
       ++ [O1Mini.request_of self
             (O1Mini.filter_body (remapped py_str (caller_body w)))]).
Proof.
  intros Hok. unfold O1Mini.pipe, bind.
  rewrite (remap_user_spec _ Hok).
  unfold get_body, attempt, net_call, try_except_when, try_except, bind, lift,
    O1Mini.on_request_exception, try_except_when, try_except, bind, lift,
    ret, raise.
  cbn [caller_body net_log].
  destruct (requests_post _) as [r|e].
  - destruct (O1Mini.raise_for_status r) as [[]|e].
    + destruct (py_truthy _); [done|].
      destruct (O1Mini.json r) as [v|e]; [done|].
      destruct (isinstance_RequestException e); [|done].
      by destruct (isinstance_ValueError e).
    + destruct (isinstance_RequestException e); [|done].
      destruct (O1Mini.json r) as [v|e']; [done|].
      by destruct (isinstance_ValueError e').
  - by destruct (isinstance_RequestException e).
Qed.

End O1Mini_facts.

Section O1Mini_results.

Variable py_str : pyval → string.
Variable requests_post : O1Mini.post_request → outcome O1Mini.Response.
Variable self : O1Mini.Pipeline.
Variables um mid : string.
Variable msgs : list pyval.
Variable w : world O1Mini.post_request.

Lemma o1_stream_lookup :
  O1Mini.filter_body (remapped py_str (caller_body w)) !! "stream"
  = caller_body w !! "stream".
Proof.
  rewrite o1_filter_lookup by (unfold O1Mini.allowed_params; set_solver).
  by apply remapped_lookup.
Qed.


Lemma o1_pipe_blocking (r : O1Mini.Response) (parsed : pyval) :
  remap_ok (caller_body w) = true →
  requests_post
    (O1Mini.request_of self
       (O1Mini.filter_body (remapped py_str (caller_body w))))
  = Return r →
  O1Mini.raise_for_status r = Return tt →
  py_truthy (default PNone (caller_body w !! "stream")) = false →
  O1Mini.json r = Return parsed →
  fst (O1Mini.pipe py_str requests_post self um mid msgs w)
  = Return (RVal parsed).
Proof.
  intros Hok Hpost Hstatus Hstream Hjson. unfold O1Mini.pipe, bind.
  rewrite (remap_user_spec _ _ Hok).
  unfold get_body, attempt, net_call. cbn [caller_body net_log].
  rewrite Hpost.
  unfold try_except_when, try_except, bind, lift. rewrite Hstatus.
  rewrite o1_stream_lookup. rewrite Hstream. by rewrite Hjson.
Qed.

(** A [user] without [get] makes the call raise before anything is sent. *)
Lemma o1_pipe_remap_fault (u : pyval) :
  caller_body w !! "user" = Some u → remap_ok (caller_body w) = false →
  O1Mini.pipe py_str requests_post self um mid msgs w
  = (Raise (Exn AttributeError
       ("'" +:+ py_type_name u +:+ "' object has no attribute 'get'")), w).
Proof.
  intros Hu Hbad. unfold O1Mini.pipe, bind.
  by rewrite (remap_user_fault _ _ _ Hu Hbad).
Qed.

End O1Mini_results.

(** *** Values inside a dict are smaller than the dict *)

Lemma pysize_lookup (d : gmap string pyval) (k : string) (v : pyval) :
  d !! k = Some v → (pysize v < pysize (PDict d))%nat.
Proof.
  intros Hk. cbn [pysize].
  rewrite (map_fold_delete_L _ _ k v d); [lia| |done].
  intros. lia.
Qed.

Lemma lookup_ne_dict (d : gmap string pyval) (k : string) (v : pyval) :
  d !! k = Some v → v ≠ PDict d.
Proof. intros Hk ->. apply pysize_lookup in Hk. lia. Qed.

Lemma user_id_ne (py_str : pyval → string) (u : gmap string pyval) :
  user_id py_str u ≠ PDict u.
Proof.
  unfold user_id. destruct (u !! "id") as [v|] eqn:Hid; simpl.
  - by apply (lookup_ne_dict u "id").
  - done.
Qed.

Lemma remapped_changes (py_str : pyval → string) (body u : gmap string pyval) :
  body !! "user" = Some (PDict u) →
  remapped py_str body = <["user" := user_id py_str u]> body
  ∧ remapped py_str body ≠ body.
Proof.
  intros Hu. unfold remapped. rewrite Hu. split; [done|].
  intros Heq.
  assert (<["user" := user_id py_str u]> body !! "user" = Some (PDict u)) as H
    by (by rewrite Heq).
  rewrite lookup_insert_eq in H. inversion H as [H'].
  by apply user_id_ne in H'.
Qed.

Lemma stripped_changes (body : gmap string pyval) (k : string) :
  k = "user" ∨ k = "chat_id" ∨ k = "title" → is_Some (body !! k) →
  stripped body ≠ body.
Proof.
  intros Hk [v Hv] Heq. apply stripped_lookup_None with (body := body) in Hk.
  rewrite Heq in Hk. congruence.
Qed.

Lemma ds_filter_lookup_None (body : gmap string pyval) (k : string) :
  k ∉ DeepSeekR1.allowed_params → DeepSeekR1.filter_body body !! k = None.
Proof.
  intros Hk. unfold DeepSeekR1.filter_body.
  apply map_lookup_filter_None. right. intros x _. exact Hk.
Qed.

(** The error envelope is never the empty string. *)
Lemma json_dumps_error_nonempty (msg : string) : json_dumps_error msg ≠ "".
Proof. done. Qed.

(** ** The claims *)

(** *** Normalisation of the messages *)

(** C4, as the code has it.  With several system entries, the content of the
    last one becomes the system message, put in front of the outgoing
    messages when it is not empty; the earlier system entries are removed:
    the outgoing conversation is made of the entries of other roles alone,
    in their order, and holds no system message. *)
Theorem last_system_hoisted_earlier_dropped
    (l1 l3 : list Chat.raw_message) (b : Chat.raw_message) :
  Chat.is_system b = true →
  Forall (λ m, Chat.non_system m = true) l3 →
  let conversation :=
    map Chat.typed_message
      (filter (λ m, Chat.non_system m = true) (l1 ++ l3)) in
  DeepSeekR1.prepare_messages (map Chat.to_py (l1 ++ b :: l3))
  = Return ((if py_truthy (Chat.content b)
             then [DeepSeekR1.SystemMessage (Chat.content b)] else [])
            ++ conversation)
  ∧ Forall (λ t, Chat.is_SystemMessage t = false) conversation.
Proof.
  intros Hb Hl3 conversation. split.
  - by apply prepare_messages_last_system.
  - apply typed_conversation_no_system.
Qed.

Lemma last_system_hoisted_earlier_dropped_witness :
  DeepSeekR1.prepare_messages
    (map Chat.to_py
       ([Chat.message "system" "A"; Chat.message "user" "U"]
        ++ Chat.message "system" "B" :: [Chat.message "assistant" "V"]))
  = Return [DeepSeekR1.SystemMessage (PStr "B");
            DeepSeekR1.UserMessage (PStr "U");
            DeepSeekR1.AssistantMessage (PStr "V")].
Proof.
  apply (proj1 (last_system_hoisted_earlier_dropped
                  [Chat.message "system" "A"; Chat.message "user" "U"]
                  [Chat.message "assistant" "V"]
                  (Chat.message "system" "B")
                  eq_refl
                  ltac:(repeat constructor))).
Defined.

(** The earlier system entry is not kept as a message of its own. *)
Lemma earlier_system_counterexample :
  let out :=
    [DeepSeekR1.SystemMessage (PStr "B"); DeepSeekR1.UserMessage (PStr "U")] in
  DeepSeekR1.prepare_messages
    [Chat.to_py (Chat.message "system" "A");
     Chat.to_py (Chat.message "user" "U");
     Chat.to_py (Chat.message "system" "B")]
  = Return out
  ∧ DeepSeekR1.SystemMessage (PStr "A") ∉ out.
Proof.
  split; [by vm_compute|].
  intros Hin. repeat (apply elem_of_cons in Hin as [Hin|Hin]; [done|]).
  by apply elem_of_nil in Hin.
Qed.

(** C5.  For messages with a system entry [a] before the last system entry
    [b], [pop_system_message] gives the content of [b] as the system
    message, and [a] is nowhere in the conversation it returns, which is
    made of the entries of other roles; in the outgoing messages of [pipe]
    the only system message there can be is the one of [b]. *)
Theorem last_system_wins
    (l1 l2 l3 : list Chat.raw_message) (a b : Chat.raw_message) :
  Chat.is_system a = true →
  Chat.is_system b = true →
  Forall (λ m, Chat.non_system m = true) l3 →
  let messages := map Chat.to_py (l1 ++ a :: l2 ++ b :: l3) in
  let conversation :=
    map Chat.to_py (filter (λ m, Chat.non_system m = true) (l1 ++ l2 ++ l3)) in
  DeepSeekR1.pop_system_message messages = Return (Chat.content b, conversation)
  ∧ (Chat.to_py a ∉ conversation)
  ∧ (∃ out, DeepSeekR1.prepare_messages messages = Return out
      ∧ (∀ c, DeepSeekR1.SystemMessage c ∈ out → c = Chat.content b)).
Proof.
  intros Ha Hb Hl3 messages conversation.
  assert (l1 ++ a :: l2 ++ b :: l3 = (l1 ++ a :: l2) ++ b :: l3) as Hsplit
    by (by rewrite <- app_assoc).
  assert (filter (λ m, Chat.non_system m = true) (l1 ++ a :: l2 ++ b :: l3)
          = filter (λ m, Chat.non_system m = true) (l1 ++ l2 ++ l3)) as Hfilter.
  { assert (∀ m, Chat.is_system m = true → ¬ Chat.non_system m = true) as Hno
      by (intros m Hm; unfold Chat.non_system; by rewrite Hm).
    rewrite !filter_app, !filter_cons, !filter_app, !filter_cons.
    rewrite (decide_False (P := Chat.non_system a = true)) by auto.
    by rewrite (decide_False (P := Chat.non_system b = true)) by auto. }
  split; [|split].
  - subst messages conversation. rewrite pop_system_message_spec.
    rewrite Hfilter. do 2 f_equal. rewrite Hsplit.
    by apply last_system_content_last.
  - subst conversation. intros Hin.
    apply list_elem_of_fmap in Hin as (m & Heq & Hm).
    apply list_elem_of_filter in Hm as [Hm _].
    apply to_py_role_inj in Heq.
    unfold Chat.non_system, Chat.is_system in *.
    rewrite <- Heq, Ha in Hm. done.
  - subst messages. rewrite Hsplit.
    eexists. split; [by apply prepare_messages_last_system|].
    pose proof (typed_conversation_no_system ((l1 ++ a :: l2) ++ l3)) as Hno.
    intros c Hc. apply elem_of_app in Hc as [Hc|Hc].
    + destruct (py_truthy (Chat.content b)).
      * apply list_elem_of_singleton in Hc. by inversion Hc.
      * by apply elem_of_nil in Hc.
    + rewrite Forall_forall in Hno. by apply Hno in Hc.
Qed.

Lemma last_system_wins_witness :
  DeepSeekR1.pop_system_message
    (map Chat.to_py
       ([Chat.message "user" "U"] ++ Chat.message "system" "A"
        :: [Chat.message "assistant" "V"] ++ Chat.message "system" "B"
        :: [Chat.message "user" "W"]))
  = Return (PStr "B",
            map Chat.to_py
              [Chat.message "user" "U"; Chat.message "assistant" "V";
               Chat.message "user" "W"]).
Proof.
  apply (proj1 (last_system_wins
                  [Chat.message "user" "U"] [Chat.message "assistant" "V"]
                  [Chat.message "user" "W"]
                  (Chat.message "system" "A") (Chat.message "system" "B")
                  eq_refl eq_refl ltac:(repeat constructor))).
Defined.

(** C8, as the code has it.  For messages with exactly one system entry
    whose content is not empty, the outgoing messages of [pipe] start with
    that entry as a system message, followed by all the other entries in
    their order; they are what the one request to the provider carries. *)
Theorem single_system_hoisted (remote : DeepSeekR1.provider)
    (self : DeepSeekR1.Pipeline) (um mid : string)
    (w : world DeepSeekR1.complete_request)
    (l1 l2 : list Chat.raw_message) (s : Chat.raw_message) :
  Chat.is_system s = true →
  py_truthy (Chat.content s) = true →
  Forall (λ m, Chat.non_system m = true) l1 →
  Forall (λ m, Chat.non_system m = true) l2 →
  let messages := map Chat.to_py (l1 ++ s :: l2) in
  let outgoing :=
    DeepSeekR1.SystemMessage (Chat.content s)
    :: map Chat.typed_message (l1 ++ l2) in
  DeepSeekR1.prepare_messages messages = Return outgoing
  ∧ (∃ req,
       net_log (snd (DeepSeekR1.pipe remote self um mid messages w))
       = net_log w ++ [req]
       ∧ DeepSeekR1.req_messages req = outgoing).
Proof.
  intros Hs Hc Hl1 Hl2 messages outgoing.
  assert (DeepSeekR1.prepare_messages messages = Return outgoing) as Hp.
  { subst messages outgoing.
    rewrite (prepare_messages_last_system _ _ _ Hs Hl2), Hc.
    rewrite filter_non_system_id; [done|]. by apply Forall_app. }
  split; [done|].
  rewrite (pipe_spec _ _ _ _ _ _ _ Hp). by eexists.
Qed.

Lemma single_system_hoisted_witness :
  DeepSeekR1.prepare_messages
    (map Chat.to_py
       ([Chat.message "user" "U"] ++ Chat.message "system" "Be brief."
        :: [Chat.message "assistant" "V"; Chat.message "user" "W"]))
  = Return [DeepSeekR1.SystemMessage (PStr "Be brief.");
            DeepSeekR1.UserMessage (PStr "U");
            DeepSeekR1.AssistantMessage (PStr "V");
            DeepSeekR1.UserMessage (PStr "W")].
Proof.
  apply (proj1 (single_system_hoisted Sample.mock (DeepSeekR1.init ∅)
                  "U" "DeepSeekR1" (Sample.empty_world ∅)
                  [Chat.message "user" "U"]
                  [Chat.message "assistant" "V"; Chat.message "user" "W"]
                  (Chat.message "system" "Be brief.")
                  eq_refl eq_refl
                  ltac:(repeat constructor) ltac:(repeat constructor))).
Defined.

(** A single system entry with an empty content is not moved to the front:
    it is left out. *)
Lemma empty_system_counterexample :
  DeepSeekR1.prepare_messages
    [Chat.to_py (Chat.message "system" "");
     Chat.to_py (Chat.message "user" "Hello")]
  = Return [DeepSeekR1.UserMessage (PStr "Hello")].
Proof. by vm_compute. Qed.

(** *** Aggregation of a streamed answer *)

(** C6, as the code has it.  When the provider streams a finite sequence of
    updates that the loop can read (the first choice of an update, when
    there is one, has a delta whose content is a string, or is null or
    otherwise falsy), [stream_response] returns the concatenation, in the
    order of arrival, of the fragments of the updates: the non-empty content
    of the delta of the first choice of each update that has a choice.
    Updates without a choice or with an empty or null delta content add
    nothing, and neither fault nor stop the aggregation. *)
Theorem collect_all_concatenates (remote : DeepSeekR1.provider)
    (self : DeepSeekR1.Pipeline) (dm : list DeepSeekR1.azure_message)
    (params : gmap string pyval) (w : world DeepSeekR1.complete_request)
    (updates : list DeepSeekR1.StreamingChatCompletionsUpdate) :
  Forall (λ u, readable u = true) updates →
  DeepSeekR1.complete_stream remote (DeepSeekR1.request_of self dm true params)
  = Return (map Return updates) →
  fst (DeepSeekR1.stream_response remote self dm params w)
  = Return (RVal (PStr (join (fragments updates)))).
Proof.
  intros Hreadable Hstream. rewrite stream_response_spec. cbn [fst].
  rewrite Hstream. unfold streaming_text. by rewrite stream_loop_spec.
Qed.

Lemma collect_all_concatenates_witness :
  fst (DeepSeekR1.stream_response Sample.mock
         (DeepSeekR1.init Sample.configured_env)
         [DeepSeekR1.UserMessage (PStr "How many languages are in the world?")]
         ∅ (Sample.empty_world ∅))
  = Return (RVal (PStr "There are about 7000.")).
Proof.
  apply (collect_all_concatenates Sample.mock
           (DeepSeekR1.init Sample.configured_env)
           [DeepSeekR1.UserMessage (PStr "How many languages are in the world?")]
           ∅ (Sample.empty_world ∅)
           [Sample.update "There "; Sample.update "are ";
            {| DeepSeekR1.update_choices := [] |};
            Sample.update "about "; Sample.update ""; Sample.update "7000."]).
  - repeat constructor.
  - reflexivity.
Defined.

(** A first choice without a delta, between two fragments, ends the
    aggregation: the result is an error envelope, not the two fragments
    joined. *)
Lemma absent_delta_counterexample :
  let updates :=
    [Sample.update "There ";
     {| DeepSeekR1.update_choices := [ {| DeepSeekR1.delta := None |} ] |};
     Sample.update "are"] in
  let result :=
    fst (DeepSeekR1.stream_response Sample.dropping
           (DeepSeekR1.init Sample.configured_env)
           [DeepSeekR1.UserMessage (PStr "How many languages are in the world?")]
           ∅ (Sample.empty_world ∅)) in
  DeepSeekR1.complete_stream Sample.dropping
    (DeepSeekR1.request_of (DeepSeekR1.init Sample.configured_env)
       [DeepSeekR1.UserMessage (PStr "How many languages are in the world?")]
       true ∅)
  = Return (map Return updates)
  ∧ join (fragments updates) = "There are"
  ∧ result
    = Return (RVal (PStr (json_dumps_error
                            "'NoneType' object has no attribute 'content'")))
  ∧ result ≠ Return (RVal (PStr "There are")).
Proof.
  assert (fst (DeepSeekR1.stream_response Sample.dropping
           (DeepSeekR1.init Sample.configured_env)
           [DeepSeekR1.UserMessage (PStr "How many languages are in the world?")]
           ∅ (Sample.empty_world ∅))
          = Return (RVal (PStr (json_dumps_error
                            "'NoneType' object has no attribute 'content'"))))
    as H by (by vm_compute).
  cbv zeta. rewrite H. repeat split; try done.
Qed.

(** *** Faults at the entry point *)

(** C1, at the input where the o1-mini pipeline breaks it.  When
    [requests.post] itself faults with a [RequestException] (the endpoint
    cannot be reached, the request times out), the handler of [pipe] reads
    its local variable [response], which was never bound: the call ends in
    an [UnboundLocalError] that goes on to the caller, where the DeepSeekR1
    pipeline (lemma [pipe_returns_value]) returns a value in every case. *)
Theorem o1mini_post_fault_escapes (py_str : pyval → string)
    (requests_post : O1Mini.post_request → outcome O1Mini.Response)
    (self : O1Mini.Pipeline) (um mid : string) (msgs : list pyval)
    (w : world O1Mini.post_request) (e : exn) :
  remap_ok (caller_body w) = true →
  requests_post
    (O1Mini.request_of self
       (O1Mini.filter_body (remapped py_str (caller_body w))))
  = Raise e →
  isinstance_RequestException e = true →
  fst (O1Mini.pipe py_str requests_post self um mid msgs w)
  = Raise (Exn UnboundLocalError
      "cannot access local variable 'response' where it is not associated with a value").
Proof.
  intros Hok Hpost He. unfold O1Mini.pipe, bind.
  rewrite (remap_user_spec _ _ Hok).
  unfold get_body, attempt, net_call. cbn [caller_body net_log].
  rewrite Hpost, He. done.
Qed.

Lemma o1mini_post_fault_escapes_witness :
  fst (O1Mini.pipe Sample.sample_str Sample.unreachable (O1Mini.init ∅)
         "How many languages are in the world?" "o1-mini"
         Sample.main_messages (Sample.empty_world Sample.main_body))
  = Raise (Exn UnboundLocalError
      "cannot access local variable 'response' where it is not associated with a value").
Proof.
  apply (o1mini_post_fault_escapes Sample.sample_str Sample.unreachable
           (O1Mini.init ∅) "How many languages are in the world?" "o1-mini"
           Sample.main_messages (Sample.empty_world Sample.main_body)
           (Exn ConnectionError "Max retries exceeded"));
    reflexivity.
Defined.

(** *** The shape of the result *)




(** *** Placeholder configuration *)

(** C3, as the code has it.  A pipeline built while the environment does
    not set the credential and the endpoint holds their placeholder values,
    and [pipe] makes no check of them.  Whenever the request can be prepared
    (the messages normalise; the [user] field remaps), [pipe] calls its
    client exactly once, with the placeholder values: [client.complete] on
    the client built from the placeholder endpoint and credential,
    [requests.post] with the placeholder key in its header.  A fault of
    that call of [client.complete], such as the refusal of the endpoint,
    comes back from the DeepSeekR1 [pipe] as the plain envelope of its
    text. *)
Theorem placeholder_configuration_unchecked (env : gmap string string)
    (remote : DeepSeekR1.provider) (um mid : string) (msgs : list pyval)
    (wd : world DeepSeekR1.complete_request)
    (dm : list DeepSeekR1.azure_message)
    (py_str : pyval → string)
    (requests_post : O1Mini.post_request → outcome O1Mini.Response)
    (w : world O1Mini.post_request) :
  (env !! "AZURE_INFERENCE_ENDPOINT" = None →
   env !! "AZURE_INFERENCE_CREDENTIAL" = None →
   DeepSeekR1.prepare_messages msgs = Return dm →
   let out := DeepSeekR1.pipe remote (DeepSeekR1.init env) um mid msgs wd in
   ∃ req,
     net_log (snd out) = net_log wd ++ [req]
     ∧ DeepSeekR1.req_endpoint req = "your-azure-inference-endpoint-here"
     ∧ DeepSeekR1.req_credential req = "your-azure-inference-key-here"
     ∧ is_placeholder (DeepSeekR1.req_endpoint req) = true
     ∧ is_placeholder (DeepSeekR1.req_credential req) = true
     ∧ (∀ e,
          (if streams (caller_body wd)
           then DeepSeekR1.complete_stream remote req = Raise e
           else DeepSeekR1.complete remote req = Raise e) →
          fst out = Return (RVal (PStr (json_dumps_error (exn_str e))))))
  ∧ (env !! "AZURE_OPENAI_API_KEY" = None →
     remap_ok (caller_body w) = true →
     let out := O1Mini.pipe py_str requests_post (O1Mini.init env) um mid msgs w in
     ∃ req,
       net_log (snd out) = net_log w ++ [req]
       ∧ O1Mini.post_headers req !! "api-key"
         = Some "your-azure-openai-api-key-here"
       ∧ is_placeholder "your-azure-openai-api-key-here" = true).
Proof.
  split.
  - intros Hendpoint Hcredential Hp out. subst out.
    rewrite (pipe_spec _ _ _ _ _ _ _ Hp).
    eexists. cbn [fst snd net_log]. split; [done|].
    cbn [DeepSeekR1.req_endpoint DeepSeekR1.req_credential DeepSeekR1.request_of
         DeepSeekR1.init DeepSeekR1.update_client DeepSeekR1.client
         DeepSeekR1.valves DeepSeekR1.endpoint DeepSeekR1.credential
         DeepSeekR1.AZURE_INFERENCE_ENDPOINT
         DeepSeekR1.AZURE_INFERENCE_CREDENTIAL].
    unfold DeepSeekR1.getenv. rewrite Hendpoint, Hcredential.
    cbn [default]. do 4 (split; [done|]).
    intros e Hfault.
    destruct (streams (caller_body wd)); by rewrite Hfault.
  - intros Hkey Hok out. subst out. rewrite (o1_pipe_world _ _ _ _ _ _ _ Hok).
    eexists. cbn [net_log]. split; [done|]. split; [|done].
    cbn [O1Mini.post_headers O1Mini.request_of].
    unfold O1Mini.headers_of, O1Mini.init, O1Mini.getenv.
    cbn [O1Mini.valves O1Mini.AZURE_OPENAI_API_KEY]. rewrite Hkey.
    by rewrite lookup_insert_eq.
Qed.

Lemma placeholder_configuration_unchecked_witness :
  fst (DeepSeekR1.pipe Sample.no_url (DeepSeekR1.init ∅)
         "How many languages are in the world?" "DeepSeekR1"
         Sample.main_messages (Sample.empty_world Sample.main_body))
  = Return (RVal (PStr (json_dumps_error "Invalid URL: No scheme supplied"))).
Proof.
  assert (DeepSeekR1.prepare_messages Sample.main_messages
          = Return [DeepSeekR1.UserMessage
                      (PStr "How many languages are in the world?")])
    as Hprepared by (vm_compute; reflexivity).
  assert ((∅ : gmap string string) !! "AZURE_INFERENCE_ENDPOINT" = None)
    as Hendpoint0 by (vm_compute; reflexivity).
  assert ((∅ : gmap string string) !! "AZURE_INFERENCE_CREDENTIAL" = None)
    as Hcredential0 by (vm_compute; reflexivity).
  destruct (proj1 (placeholder_configuration_unchecked ∅ Sample.no_url
                     "How many languages are in the world?" "DeepSeekR1"
                     Sample.main_messages (Sample.empty_world Sample.main_body)
                     [DeepSeekR1.UserMessage
                        (PStr "How many languages are in the world?")]
                     Sample.sample_str Sample.unreachable
                     (Sample.empty_world Sample.main_body))
                  Hendpoint0 Hcredential0 Hprepared)
    as (req & _ & _ & _ & _ & _ & Hfault).
  apply (Hfault (Exn OtherException "Invalid URL: No scheme supplied")).
  vm_compute; reflexivity.
Defined.

(** With the placeholder key, the o1-mini [pipe] calls [requests.post] all
    the same, the key in the header, and the call ends as any call to an
    endpoint that cannot be reached: in the [UnboundLocalError] of the
    handler.  With the placeholder endpoint, the refusal of the client comes
    back from the DeepSeekR1 [pipe] as the plain envelope of its text. *)
Lemma placeholder_counterexample :
  let o1 := O1Mini.init ∅ in
  let out :=
    O1Mini.pipe Sample.sample_str Sample.unreachable o1
      "How many languages are in the world?" "o1-mini"
      Sample.main_messages (Sample.empty_world Sample.main_body) in
  is_placeholder (O1Mini.AZURE_OPENAI_API_KEY (O1Mini.valves o1)) = true
  ∧ map (λ req, O1Mini.post_headers req !! "api-key") (net_log (snd out))
    = [Some "your-azure-openai-api-key-here"]
  ∧ fst out
    = Raise (Exn UnboundLocalError
        "cannot access local variable 'response' where it is not associated with a value")
  ∧ is_placeholder
      (DeepSeekR1.AZURE_INFERENCE_ENDPOINT (DeepSeekR1.valves (DeepSeekR1.init ∅)))
    = true
  ∧ fst (DeepSeekR1.pipe Sample.no_url (DeepSeekR1.init ∅)
           "How many languages are in the world?" "DeepSeekR1"
           Sample.main_messages (Sample.empty_world Sample.main_body))
    = Return (RVal (PStr (json_dumps_error "Invalid URL: No scheme supplied"))).
Proof. by vm_compute. Qed.

(** *** Blocking mode *)

(** C7, as the code has it.  Without [stream], the DeepSeekR1 [pipe]
    returns the content of the first choice of the answer as the answer
    holds it, a string when that content is a string, and the empty string,
    which is no error envelope, when the answer has no choice.  The o1-mini
    [pipe] returns the parsed JSON document of a successful response as it
    is, whatever choices it holds. *)
Theorem blocking_result
    (remote : DeepSeekR1.provider) (ds_self : DeepSeekR1.Pipeline)
    (um mid : string) (msgs : list pyval)
    (wd : world DeepSeekR1.complete_request)
    (dm : list DeepSeekR1.azure_message) (answer : DeepSeekR1.ChatCompletions)
    (py_str : pyval → string)
    (requests_post : O1Mini.post_request → outcome O1Mini.Response)
    (o1_self : O1Mini.Pipeline) (w : world O1Mini.post_request)
    (r : O1Mini.Response) (parsed : pyval) :
  (DeepSeekR1.prepare_messages msgs = Return dm →
   streams (caller_body wd) = false →
   DeepSeekR1.complete remote
     (DeepSeekR1.request_of ds_self dm false
        (DeepSeekR1.filter_body (stripped (caller_body wd))))
   = Return answer →
   let result := fst (DeepSeekR1.pipe remote ds_self um mid msgs wd) in
   (∀ c cs m, DeepSeekR1.choices answer = c :: cs →
      DeepSeekR1.message c = Some m →
      result = Return (RVal (DeepSeekR1.message_content m))
      ∧ (∀ s, DeepSeekR1.message_content m = PStr s →
              result = Return (RVal (PStr s))))
   ∧ (DeepSeekR1.choices answer = [] →
      result = Return (RVal (PStr ""))
      ∧ (∀ msg, result ≠ Return (RVal (PStr (json_dumps_error msg))))))
  ∧ (remap_ok (caller_body w) = true →
     requests_post
       (O1Mini.request_of o1_self
          (O1Mini.filter_body (remapped py_str (caller_body w))))
     = Return r →
     O1Mini.raise_for_status r = Return tt →
     py_truthy (default PNone (caller_body w !! "stream")) = false →
     O1Mini.json r = Return parsed →
     fst (O1Mini.pipe py_str requests_post o1_self um mid msgs w)
     = Return (RVal parsed)).
Proof.
  split.
  - intros Hp Hblocking Hanswer result. subst result.
    rewrite (pipe_spec _ _ _ _ _ _ _ Hp). rewrite Hblocking, Hanswer.
    cbn [fst blocking_value]. unfold first_choice_value. split.
    + intros c cs m Hc Hm. rewrite Hc, Hm. split; [done|].
      intros s Hs. by rewrite Hs.
    + intros Hnone. rewrite Hnone. split; [done|].
      intros msg Heq. assert ("" = json_dumps_error msg) as Hmsg by congruence.
      by apply (json_dumps_error_nonempty msg).
  - intros Hok Hpost Hstatus Hstream Hjson.
    by apply (o1_pipe_blocking py_str requests_post o1_self um mid msgs w r).
Qed.

Lemma blocking_result_witness :
  fst (DeepSeekR1.pipe Sample.mock (DeepSeekR1.init Sample.configured_env)
         "How many languages are in the world?" "DeepSeekR1"
         Sample.main_messages
         (Sample.empty_world (<["stream" := PBool false]> Sample.main_body)))
  = Return (RVal (PStr "About 7000.")).
Proof.
  refine (proj1 (proj1 (proj1 (blocking_result Sample.mock
           (DeepSeekR1.init Sample.configured_env)
           "How many languages are in the world?" "DeepSeekR1"
           Sample.main_messages
           (Sample.empty_world (<["stream" := PBool false]> Sample.main_body))
           [DeepSeekR1.UserMessage (PStr "How many languages are in the world?")]
           (Sample.completion "About 7000.")
           Sample.sample_str Sample.unreachable (O1Mini.init ∅)
           (Sample.empty_world ∅) (Sample.ok_response PNone []) PNone)
         _ _ _)
         {| DeepSeekR1.message :=
              Some {| DeepSeekR1.message_content := PStr "About 7000." |} |}
         [] {| DeepSeekR1.message_content := PStr "About 7000." |} _ _));
    vm_compute; reflexivity.
Defined.

(** The o1-mini [pipe], in blocking mode, returns the whole document of an
    answer without choices, not the empty string. *)
Lemma blocking_counterexample :
  let result :=
    fst (O1Mini.pipe Sample.sample_str
           (λ _, Return (Sample.ok_response
                           (PDict {[ "choices" := PList [] ]}) []))
           (O1Mini.init ∅) "Hello" "o1-mini" Sample.main_messages
           (Sample.empty_world (<["stream" := PBool false]> Sample.main_body))) in
  result = Return (RVal (PDict {[ "choices" := PList [] ]}))
  ∧ result ≠ Return (RVal (PStr "")).
Proof.
  assert (fst (O1Mini.pipe Sample.sample_str
           (λ _, Return (Sample.ok_response
                           (PDict {[ "choices" := PList [] ]}) []))
           (O1Mini.init ∅) "Hello" "o1-mini" Sample.main_messages
           (Sample.empty_world (<["stream" := PBool false]> Sample.main_body)))
          = Return (RVal (PDict {[ "choices" := PList [] ]}))) as H
    by (by vm_compute).
  cbv zeta. rewrite H. by split.
Qed.

(** *** The parameters sent to the provider *)

(** C9, as the code has it.  For a body whose [user] is an object, the
    parameters the o1-mini [pipe] posts hold neither [chat_id] nor [title],
    and their [user] is the [id] of that object (the string form of the
    object when it has no [id]): the string u1 when the [id] is u1.  The
    parameters the DeepSeekR1 [pipe] sends hold neither [chat_id] nor
    [title], and no [user] at all. *)
Theorem filtered_parameters
    (py_str : pyval → string)
    (requests_post : O1Mini.post_request → outcome O1Mini.Response)
    (o1_self : O1Mini.Pipeline) (um mid : string) (msgs : list pyval)
    (w : world O1Mini.post_request) (u : gmap string pyval)
    (remote : DeepSeekR1.provider) (ds_self : DeepSeekR1.Pipeline)
    (wd : world DeepSeekR1.complete_request)
    (dm : list DeepSeekR1.azure_message) :
  (caller_body w !! "user" = Some (PDict u) →
   ∃ req,
     net_log (snd (O1Mini.pipe py_str requests_post o1_self um mid msgs w))
     = net_log w ++ [req]
     ∧ O1Mini.post_json req !! "chat_id" = None
     ∧ O1Mini.post_json req !! "title" = None
     ∧ O1Mini.post_json req !! "user" = Some (user_id py_str u)
     ∧ (u !! "id" = Some (PStr "u1") →
        O1Mini.post_json req !! "user" = Some (PStr "u1")))
  ∧ (DeepSeekR1.prepare_messages msgs = Return dm →
     ∃ req,
       net_log (snd (DeepSeekR1.pipe remote ds_self um mid msgs wd))
       = net_log wd ++ [req]
       ∧ DeepSeekR1.req_params req !! "chat_id" = None
       ∧ DeepSeekR1.req_params req !! "title" = None
       ∧ DeepSeekR1.req_params req !! "user" = None).
Proof.
  split.
  - intros Hu.
    assert (remap_ok (caller_body w) = true) as Hok
      by (unfold remap_ok; by rewrite Hu).
    rewrite (o1_pipe_world _ _ _ _ _ _ _ Hok).
    eexists. cbn [net_log O1Mini.post_json O1Mini.request_of].
    assert (O1Mini.filter_body (remapped py_str (caller_body w)) !! "user"
            = Some (user_id py_str u)) as Huser.
    { rewrite o1_filter_lookup by (unfold O1Mini.allowed_params; set_solver).
      destruct (remapped_changes py_str _ _ Hu) as [-> _].
      apply lookup_insert_eq. }
    split; [done|]. split; [|split; [|split]].
    + apply o1_filter_lookup_None. by vm_compute.
    + apply o1_filter_lookup_None. by vm_compute.
    + exact Huser.
    + intros Hid. etransitivity; [exact Huser|].
      unfold user_id. by rewrite Hid.
  - intros Hp. rewrite (pipe_spec _ _ _ _ _ _ _ Hp).
    eexists. cbn [snd net_log DeepSeekR1.req_params DeepSeekR1.request_of].
    split; [done|].
    repeat split; apply ds_filter_lookup_None; by vm_compute.
Qed.

Lemma filtered_parameters_witness :
  ∃ req,
    net_log (snd (O1Mini.pipe Sample.sample_str Sample.unreachable
                    (O1Mini.init ∅) "Hello" "o1-mini" Sample.main_messages
                    (Sample.empty_world Sample.session_body)))
    = [] ++ [req]
    ∧ O1Mini.post_json req !! "user" = Some (PStr "u1").
Proof.
  assert (Sample.session_body !! "user" = Some (PDict Sample.session_user))
    as Huser by (vm_compute; reflexivity).
  destruct (proj1 (filtered_parameters Sample.sample_str Sample.unreachable
                     (O1Mini.init ∅) "Hello" "o1-mini" Sample.main_messages
                     (Sample.empty_world Sample.session_body)
                     Sample.session_user
                     Sample.mock (DeepSeekR1.init ∅)
                     (Sample.empty_world Sample.session_body)
                     [DeepSeekR1.UserMessage
                        (PStr "How many languages are in the world?")])
                  Huser)
    as (req & Hlog & _ & _ & _ & Hu1).
  exists req. split; [exact Hlog|].
  apply Hu1. vm_compute; reflexivity.
Defined.

(** The parameters the DeepSeekR1 [pipe] sends for such a body hold no
    [user] entry. *)
Lemma user_entry_counterexample :
  let out :=
    DeepSeekR1.pipe Sample.mock (DeepSeekR1.init ∅)
      "How many languages are in the world?" "DeepSeekR1"
      Sample.main_messages (Sample.empty_world Sample.session_body) in
  Sample.session_body !! "user" = Some (PDict Sample.session_user)
  ∧ Sample.session_user !! "id" = Some (PStr "u1")
  ∧ is_Some (Sample.session_body !! "chat_id")
  ∧ is_Some (Sample.session_body !! "title")
  ∧ map (λ req, DeepSeekR1.req_params req !! "user") (net_log (snd out))
    = [None]
  ∧ DeepSeekR1.filter_body (stripped Sample.session_body) !! "user"
    ≠ Some (PStr "u1").
Proof.
  cbv zeta. repeat split; try (by vm_compute).
  - by eexists.
  - by eexists.
Qed.

(** *** The caller's dict *)

(** C10, as the code has it.  [pipe] works on the caller's dict itself.
    After a call of the DeepSeekR1 [pipe] it is the dict passed in without
    its keys [user], [chat_id] and [title], and so another mapping whenever
    it held one of them.  A call of the o1-mini [pipe] with a [user] that is
    an object leaves it with [user] overwritten by the [id] of the object
    (the string form of the object when it has no [id]), and so another
    mapping than the one passed in. *)
Theorem body_mutated_in_place
    (remote : DeepSeekR1.provider) (ds_self : DeepSeekR1.Pipeline)
    (um mid : string) (msgs : list pyval)
    (wd : world DeepSeekR1.complete_request)
    (py_str : pyval → string)
    (requests_post : O1Mini.post_request → outcome O1Mini.Response)
    (o1_self : O1Mini.Pipeline) (w : world O1Mini.post_request)
    (u : gmap string pyval) :
  (let after :=
     caller_body (snd (DeepSeekR1.pipe remote ds_self um mid msgs wd)) in
   after = delete "title" (delete "chat_id" (delete "user" (caller_body wd)))
   ∧ after !! "user" = None ∧ after !! "chat_id" = None
   ∧ after !! "title" = None
   ∧ (∀ k, k = "user" ∨ k = "chat_id" ∨ k = "title" →
      is_Some (caller_body wd !! k) → after ≠ caller_body wd))
  ∧ (caller_body w !! "user" = Some (PDict u) →
     let after :=
       caller_body (snd (O1Mini.pipe py_str requests_post o1_self um mid msgs w)) in
     after = <["user" := default (PStr (py_str (PDict u))) (u !! "id")]>
               (caller_body w)
     ∧ after ≠ caller_body w).
Proof.
  split.
  - intros after. subst after. rewrite pipe_body_after.
    split; [done|].
    repeat split; try (apply stripped_lookup_None; tauto).
    intros k Hk Hsome. by apply (stripped_changes _ k).
  - intros Hu after. subst after.
    assert (remap_ok (caller_body w) = true) as Hok
      by (unfold remap_ok; by rewrite Hu).
    rewrite (o1_pipe_world _ _ _ _ _ _ _ Hok). cbn [caller_body].
    destruct (remapped_changes py_str _ _ Hu) as [Heq Hne].
    split; [exact Heq|exact Hne].
Qed.

Lemma body_mutated_in_place_witness :
  caller_body
    (snd (O1Mini.pipe Sample.sample_str Sample.unreachable (O1Mini.init ∅)
            "Hello" "o1-mini" Sample.main_messages
            (Sample.empty_world Sample.session_body)))
  = <["user" := PStr "u1"]> Sample.session_body.
Proof.
  assert (Sample.session_body !! "user" = Some (PDict Sample.session_user))
    as Huser by (vm_compute; reflexivity).
  apply (proj1 (proj2 (body_mutated_in_place Sample.mock (DeepSeekR1.init ∅)
                         "Hello" "o1-mini" Sample.main_messages
                         (Sample.empty_world Sample.session_body)
                         Sample.sample_str Sample.unreachable (O1Mini.init ∅)
                         (Sample.empty_world Sample.session_body)
                         Sample.session_user)
                  Huser)).
Defined.

(** A [user] that is a number is not overwritten: the o1-mini [pipe] raises
    and leaves the dict as it was.  A body without the three keys is the
    same mapping after a call of the DeepSeekR1 [pipe]. *)
Lemma body_mutation_counterexample :
  O1Mini.pipe Sample.sample_str Sample.unreachable (O1Mini.init ∅)
    "Hello" "o1-mini" Sample.main_messages
    (Sample.empty_world {[ "user" := PInt 5 ]})
  = (Raise (Exn AttributeError "'int' object has no attribute 'get'"),
     Sample.empty_world {[ "user" := PInt 5 ]})
  ∧ caller_body
      (snd (DeepSeekR1.pipe Sample.mock (DeepSeekR1.init ∅)
              "How many languages are in the world?" "DeepSeekR1"
              Sample.main_messages (Sample.empty_world Sample.main_body)))
    = Sample.main_body.
Proof. split; by vm_compute. Qed.

(** ** Further properties of the code *)

(** *** [pop_system_message] on arbitrary entries *)

Lemma well_formed_getitem (m : pyval) :
  well_formed m = true
  ↔ ∃ r c, py_getitem m "role" = Return r ∧ py_getitem m "content" = Return c.
Proof.
  split.
  - destruct m as [| | | | |l|d]; try done. cbn [well_formed].
    intros H. apply andb_true_iff in H as [Hr Hc].
    apply bool_decide_eq_true in Hr as [r Hr].
    apply bool_decide_eq_true in Hc as [c Hc].
    exists r, c. unfold py_getitem. by rewrite Hr, Hc.
  - intros (r & c & Hr & Hc).
    destruct m as [| | | | |l|d]; try done. cbn [well_formed].
    unfold py_getitem in Hr, Hc.
    destruct (d !! "role") eqn:Er; [|done].
    destruct (d !! "content") eqn:Ec; [|done].
    apply andb_true_iff. split; apply bool_decide_eq_true; by eexists.
Qed.

Lemma well_formed_to_py (m : pyval) :
  well_formed m = true → ∃ x, m = Chat.to_py x.
Proof.
  destruct m as [| | | | |l|d]; try done. cbn [well_formed].
  intros H. apply andb_true_iff in H as [Hr Hc].
  apply bool_decide_eq_true in Hr as [r Hr].
  apply bool_decide_eq_true in Hc as [c Hc].
  eexists. by apply to_py_covers.
Qed.

Lemma Forall_well_formed_to_py (msgs : list pyval) :
  Forall (λ m, well_formed m = true) msgs → ∃ l, msgs = map Chat.to_py l.
Proof.
  induction 1 as [|m msgs Hm _ [l ->]]; [by exists []|].
  apply well_formed_to_py in Hm as [x ->]. by exists (x :: l).
Qed.

(** What a run of the loop that returns says of its input and result. *)
Lemma pop_system_message_loop_inv (msgs : list pyval) (s0 : pyval)
    (u0 : list pyval) (s : pyval) (upd : list pyval) :
  DeepSeekR1.pop_system_message_loop msgs s0 u0 = Return (s, upd) →
  upd = u0 ++ filter (λ m, other_role m = true) msgs
  ∧ Forall (λ m, other_role m = true
                 ∨ ∃ r c, py_getitem m "role" = Return r
                          ∧ py_getitem m "content" = Return c) msgs
  ∧ (s = s0 ∨ ∃ m, m ∈ msgs ∧ other_role m = false
                   ∧ py_getitem m "content" = Return s).
Proof.
  revert s0 u0. induction msgs as [|m msgs IH]; intros s0 u0.
  - cbn [DeepSeekR1.pop_system_message_loop]. intros [= <- <-].
    rewrite filter_nil, app_nil_r. auto.
  - cbn [DeepSeekR1.pop_system_message_loop]. rewrite filter_cons.
    destruct (py_getitem m "role") as [r|e] eqn:Hr; cbn [obind]; [|done].
    destruct (py_eq_str r "system") eqn:Hsys.
    + assert (other_role m = false) as Ho
        by (unfold other_role; by rewrite Hr, Hsys).
      destruct (py_getitem m "content") as [c|e] eqn:Hc; cbn [obind]; [|done].
      intros Hrun. apply IH in Hrun as (Hupd & Hall & Hs).
      rewrite decide_False by (by rewrite Ho). split; [done|]. split.
      * constructor; [right; by exists r, c|done].
      * right. destruct Hs as [->|(m' & Hin & Ho' & Hm')].
        -- exists m. split; [by left|done].
        -- exists m'. split; [by right|done].
    + assert (other_role m = true) as Ho
        by (unfold other_role; by rewrite Hr, Hsys).
      intros Hrun. apply IH in Hrun as (Hupd & Hall & Hs).
      rewrite decide_True by done. split.
      * by rewrite Hupd, <- app_assoc.
      * split.
        -- constructor; [by left|done].
        -- destruct Hs as [->|(m' & Hin & Ho' & Hm')]; [by left|].
           right. exists m'. split; [by right|done].
Qed.

(** On entries of other roles only, the loop changes nothing. *)
Lemma pop_system_message_loop_others (msgs : list pyval) (s0 : pyval)
    (u0 : list pyval) :
  Forall (λ m, other_role m = true) msgs →
  DeepSeekR1.pop_system_message_loop msgs s0 u0 = Return (s0, u0 ++ msgs).
Proof.
  intros H. revert u0. induction H as [|m msgs Hm _ IH]; intros u0.
  - cbn. by rewrite app_nil_r.
  - cbn [DeepSeekR1.pop_system_message_loop]. unfold other_role in Hm.
    destruct (py_getitem m "role") as [r|e]; [|done]. cbn [obind].
    apply negb_true_iff in Hm. rewrite Hm, IH. by rewrite <- app_assoc.
Qed.

(** X1.  Whenever [pop_system_message] returns, the updated list is the
    input without its system entries, the other entries in their order; and
    the system message is the empty string or the content of a system entry
    of the input. *)
Theorem pop_system_message_result (msgs : list pyval) (s : pyval)
    (upd : list pyval) :
  DeepSeekR1.pop_system_message msgs = Return (s, upd) →
  upd = filter (λ m, other_role m = true) msgs
  ∧ (List.length upd ≤ List.length msgs)%nat
  ∧ (s = PStr "" ∨ ∃ m, m ∈ msgs ∧ other_role m = false
                        ∧ py_getitem m "content" = Return s).
Proof.
  intros Hrun. apply pop_system_message_loop_inv in Hrun as (Hupd & _ & Hs).
  cbn [app] in Hupd. split; [done|]. split; [|done].
  rewrite Hupd. apply length_filter.
Qed.

Lemma pop_system_message_result_witness :
  [Chat.to_py (Chat.message "user" "U")]
  = filter (λ m, other_role m = true)
      [Chat.to_py (Chat.message "system" "A");
       Chat.to_py (Chat.message "user" "U")].
Proof.
  apply (proj1 (pop_system_message_result
                  [Chat.to_py (Chat.message "system" "A");
                   Chat.to_py (Chat.message "user" "U")]
                  (PStr "A") [Chat.to_py (Chat.message "user" "U")]
                  ltac:(vm_compute; reflexivity))).
Defined.

(** X2.  Without a system entry (every entry has a role, and none is
    [system]), [pop_system_message] returns the empty string and the input
    list as it is, whether or not the entries have a content. *)
Theorem pop_system_message_without_system (msgs : list pyval) :
  Forall (λ m, other_role m = true) msgs →
  DeepSeekR1.pop_system_message msgs = Return (PStr "", msgs).
Proof.
  intros H. unfold DeepSeekR1.pop_system_message.
  by rewrite pop_system_message_loop_others.
Qed.

Lemma pop_system_message_without_system_witness :
  DeepSeekR1.pop_system_message
    [PDict {[ "role" := PStr "user" ]};
     Chat.to_py (Chat.message "assistant" "V")]
  = Return (PStr "",
            [PDict {[ "role" := PStr "user" ]};
             Chat.to_py (Chat.message "assistant" "V")]).
Proof.
  apply (pop_system_message_without_system
           [PDict {[ "role" := PStr "user" ]};
            Chat.to_py (Chat.message "assistant" "V")]).
  repeat constructor.
Defined.

(** X3.  [pop_system_message] is idempotent on the list: applied to a list
    it returned, it returns that list again, with an empty system message. *)
Theorem pop_system_message_idempotent (msgs : list pyval) (s : pyval)
    (upd : list pyval) :
  DeepSeekR1.pop_system_message msgs = Return (s, upd) →
  DeepSeekR1.pop_system_message upd = Return (PStr "", upd).
Proof.
  intros Hrun. apply pop_system_message_loop_inv in Hrun as (Hupd & _ & _).
  cbn [app] in Hupd. unfold DeepSeekR1.pop_system_message.
  rewrite pop_system_message_loop_others; [done|].
  rewrite Hupd. apply Forall_forall. intros m Hm.
  by apply list_elem_of_filter in Hm as [Hm _].
Qed.

Lemma pop_system_message_idempotent_witness :
  DeepSeekR1.pop_system_message [Chat.to_py (Chat.message "user" "U")]
  = Return (PStr "", [Chat.to_py (Chat.message "user" "U")]).
Proof.
  apply (pop_system_message_idempotent
           [Chat.to_py (Chat.message "system" "A");
            Chat.to_py (Chat.message "user" "U")]
           (PStr "A") [Chat.to_py (Chat.message "user" "U")]).
  vm_compute; reflexivity.
Defined.

(** *** Which messages [pipe] can prepare *)

Lemma map_outcome_return_inv {A B} (f : A → outcome B) (l : list A)
    (ys : list B) :
  DeepSeekR1.map_outcome f l = Return ys →
  Forall (λ x, ∃ y, f x = Return y) l.
Proof.
  revert ys. induction l as [|x l IH]; intros ys; [constructor|].
  cbn [DeepSeekR1.map_outcome].
  destruct (f x) as [y|e] eqn:Hx; cbn [obind]; [|done].
  destruct (DeepSeekR1.map_outcome f l) as [ys'|e] eqn:Hl; cbn [obind]; [|done].
  intros _. constructor; [by exists y|by eapply IH].
Qed.

Lemma to_azure_message_return_inv (m : pyval) (t : DeepSeekR1.azure_message) :
  DeepSeekR1.to_azure_message m = Return t → well_formed m = true.
Proof.
  intros H. apply well_formed_getitem. unfold DeepSeekR1.to_azure_message in H.
  destruct (py_getitem m "role") as [r|e]; cbn [obind] in H; [|done].
  destruct (py_getitem m "content") as [c|e]; [by exists r, c|].
  by repeat (destruct (py_eq_str r _); cbn [obind] in H).
Qed.

(** Messages that [prepare_messages] accepts are dicts with role and
    content, all of them. *)
Lemma prepare_messages_return_inv (msgs : list pyval)
    (out : list DeepSeekR1.azure_message) :
  DeepSeekR1.prepare_messages msgs = Return out →
  Forall (λ m, well_formed m = true) msgs.
Proof.
  unfold DeepSeekR1.prepare_messages, DeepSeekR1.pop_system_message.
  destruct (DeepSeekR1.pop_system_message_loop msgs (PStr "") [])
    as [[s upd]|e] eqn:Hpop; cbn [obind]; [|done].
  destruct (DeepSeekR1.map_outcome DeepSeekR1.to_azure_message upd)
    as [rest|e] eqn:Hmap; cbn [obind]; [|done].
  intros _. apply pop_system_message_loop_inv in Hpop as (Hupd & Hall & _).
  apply map_outcome_return_inv in Hmap. cbn [app] in Hupd.
  rewrite Forall_forall in Hall, Hmap. apply Forall_forall. intros m Hm.
  destruct (Hall m Hm) as [Ho|Hrc].
  - destruct (Hmap m) as [t Ht].
    + rewrite Hupd. by apply list_elem_of_filter.
    + by eapply to_azure_message_return_inv.
  - by apply well_formed_getitem.
Qed.

(** X4.  [pipe] can prepare the messages exactly when every entry is a dict
    with the keys [role] and [content]; the values under them may be
    anything. *)
Theorem prepare_messages_accepts (msgs : list pyval) :
  (∃ out, DeepSeekR1.prepare_messages msgs = Return out)
  ↔ Forall (λ m, well_formed m = true) msgs.
Proof.
  split.
  - intros [out Hout]. by eapply prepare_messages_return_inv.
  - intros Hwf. apply Forall_well_formed_to_py in Hwf as [l ->].
    rewrite prepare_messages_spec. by eexists.
Qed.

(** X5.  When some entry of the messages is not a dict with role and
    content, [pipe] returns an error envelope and sends nothing to the
    provider; the caller's dict has lost the three keys all the same. *)
Theorem pipe_rejects_malformed (remote : DeepSeekR1.provider)
    (self : DeepSeekR1.Pipeline) (um mid : string) (msgs : list pyval)
    (w : world DeepSeekR1.complete_request) :
  Exists (λ m, well_formed m = false) msgs →
  let out := DeepSeekR1.pipe remote self um mid msgs w in
  (∃ e, fst out = Return (RVal (PStr (json_dumps_error (exn_str e)))))
  ∧ net_log (snd out) = net_log w
  ∧ caller_body (snd out) = stripped (caller_body w).
Proof.
  intros Hbad out. subst out.
  destruct (DeepSeekR1.prepare_messages msgs) as [dm|e] eqn:Hp.
  - apply prepare_messages_return_inv in Hp.
    apply Exists_exists in Hbad as (m & Hm & Hbad).
    rewrite Forall_forall in Hp. specialize (Hp m Hm). congruence.
  - rewrite (pipe_spec_failed _ _ _ _ _ _ _ Hp). cbn [fst snd net_log caller_body].
    split; [by exists e|done].
Qed.

Lemma pipe_rejects_malformed_witness :
  net_log (snd (DeepSeekR1.pipe Sample.mock (DeepSeekR1.init ∅)
                  "Hello" "DeepSeekR1"
                  [Chat.to_py (Chat.message "user" "Hello");
                   PDict {[ "role" := PStr "user" ]}]
                  (Sample.empty_world Sample.session_body)))
  = [].
Proof.
  apply (pipe_rejects_malformed Sample.mock (DeepSeekR1.init ∅)
           "Hello" "DeepSeekR1"
           [Chat.to_py (Chat.message "user" "Hello");
            PDict {[ "role" := PStr "user" ]}]
           (Sample.empty_world Sample.session_body)).
  apply Exists_cons_tl, Exists_cons_hd. vm_compute; reflexivity.
Defined.

Lemma pop_system_message_loop_fault (l1 : list Chat.raw_message) (m : pyval)
    (rest : list pyval) (e : exn) (s0 : pyval) (u0 : list pyval) :
  py_getitem m "role" = Raise e →
  DeepSeekR1.pop_system_message_loop (map Chat.to_py l1 ++ m :: rest) s0 u0
  = Raise e.
Proof.
  intros Hm. revert s0 u0. induction l1 as [|x l1 IH]; intros s0 u0.
  - cbn [map app DeepSeekR1.pop_system_message_loop]. by rewrite Hm.
  - rewrite map_cons. cbn [app DeepSeekR1.pop_system_message_loop].
    rewrite getitem_role. cbn [obind].
    destruct (py_eq_str (Chat.role x) "system"); [|apply IH].
    rewrite getitem_content. cbn [obind]. apply IH.
Qed.

(** X6.  The first entry without a [role] key, after entries that are in
    order, makes [pipe] return the envelope of its [KeyError], whose text is
    the quoted key, whatever comes after that entry. *)
Theorem pipe_missing_role (remote : DeepSeekR1.provider)
    (self : DeepSeekR1.Pipeline) (um mid : string)
    (w : world DeepSeekR1.complete_request)
    (l1 : list Chat.raw_message) (d : gmap string pyval) (rest : list pyval) :
  d !! "role" = None →
  let msgs := map Chat.to_py l1 ++ PDict d :: rest in
  DeepSeekR1.pop_system_message msgs = Raise (Exn KeyError "'role'")
  ∧ fst (DeepSeekR1.pipe remote self um mid msgs w)
    = Return (RVal (PStr (json_dumps_error "'role'"))).
Proof.
  intros Hd msgs.
  assert (py_getitem (PDict d) "role" = Raise (Exn KeyError "'role'")) as Hm
    by (unfold py_getitem; by rewrite Hd).
  assert (DeepSeekR1.pop_system_message msgs = Raise (Exn KeyError "'role'"))
    as Hpop by (by apply pop_system_message_loop_fault).
  split; [done|].
  rewrite (pipe_spec_failed _ _ _ _ _ _ (Exn KeyError "'role'")); [done|].
  unfold DeepSeekR1.prepare_messages. by rewrite Hpop.
Qed.

Lemma pipe_missing_role_witness :
  DeepSeekR1.pop_system_message
    (map Chat.to_py [Chat.message "system" "Be brief."]
     ++ PDict {[ "content" := PStr "Hello" ]} :: [PInt 3])
  = Raise (Exn KeyError "'role'").
Proof.
  assert (({[ "content" := PStr "Hello" ]} : gmap string pyval) !! "role" = None)
    as Hnone by (vm_compute; reflexivity).
  apply (proj1 (pipe_missing_role Sample.mock (DeepSeekR1.init ∅)
                  "Hello" "DeepSeekR1" (Sample.empty_world ∅)
                  [Chat.message "system" "Be brief."]
                  {[ "content" := PStr "Hello" ]} [PInt 3] Hnone)).
Defined.

(** X7.  An entry whose role is neither [user] nor [system], a string or
    not, is sent as an assistant message with its content unchanged. *)
Theorem unknown_role_is_assistant (d : gmap string pyval) (r c : pyval) :
  d !! "role" = Some r → d !! "content" = Some c →
  r ≠ PStr "user" → r ≠ PStr "system" →
  DeepSeekR1.to_azure_message (PDict d) = Return (DeepSeekR1.AssistantMessage c)
  ∧ DeepSeekR1.prepare_messages [PDict d]
    = Return [DeepSeekR1.AssistantMessage c].
Proof.
  intros Hr Hc Huser Hsys.
  assert (∀ s, r ≠ PStr s → py_eq_str r s = false) as Hne.
  { intros s Hs. destruct r; try done. cbn [py_eq_str].
    apply String.eqb_neq. congruence. }
  pose proof (Hne _ Huser) as Huser'. pose proof (Hne _ Hsys) as Hsys'.
  assert (DeepSeekR1.to_azure_message (PDict d)
          = Return (DeepSeekR1.AssistantMessage c)) as Hone.
  { unfold DeepSeekR1.to_azure_message, py_getitem. rewrite Hr, Hc.
    cbn [obind]. rewrite Huser'. cbn [obind]. by rewrite Hsys'. }
  split; [exact Hone|].
  unfold DeepSeekR1.prepare_messages, DeepSeekR1.pop_system_message.
  cbn [DeepSeekR1.pop_system_message_loop].
  replace (py_getitem (PDict d) "role") with (Return (A := pyval) r)
    by (unfold py_getitem; by rewrite Hr).
  cbn [obind]. rewrite Hsys'. cbn [obind app DeepSeekR1.map_outcome].
  rewrite Hone. done.
Qed.

Lemma unknown_role_is_assistant_witness :
  DeepSeekR1.to_azure_message
    (PDict {[ "role" := PStr "tool"; "content" := PList [PInt 1] ]})
  = Return (DeepSeekR1.AssistantMessage (PList [PInt 1])).
Proof.
  refine (proj1 (unknown_role_is_assistant
                   {[ "role" := PStr "tool"; "content" := PList [PInt 1] ]}
                   (PStr "tool") (PList [PInt 1]) _ _ _ _));
    first [ vm_compute; reflexivity | discriminate ].
Defined.

(** *** Faults of the provider in the DeepSeekR1 pipeline *)

(** A stream that faults ends the loop in a fault: its own, when the
    updates before it can be read. *)
Lemma stream_loop_fault (us : list DeepSeekR1.StreamingChatCompletionsUpdate)
    (e : exn) (rest : list (outcome DeepSeekR1.StreamingChatCompletionsUpdate))
    (acc : string) :
  ∃ e', DeepSeekR1.stream_loop acc (map Return us ++ Raise e :: rest) = Raise e'
        ∧ (Forall (λ u, readable u = true) us → e' = e).
Proof.
  revert acc. induction us as [|u us IH]; intros acc; [by exists e|].
  rewrite map_cons. cbn [app DeepSeekR1.stream_loop].
  assert (∀ acc',
            ∃ e', DeepSeekR1.stream_loop acc' (map Return us ++ Raise e :: rest)
                  = Raise e'
                  ∧ (Forall (λ u, readable u = true) (u :: us) → e' = e))
    as Hgo.
  { intros acc'. destruct (IH acc') as (e' & Hrun & He').
    exists e'. split; [done|]. intros Hall. apply He'.
    by eapply Forall_inv_tail. }
  assert (readable u = false →
          ∀ e', ∃ e'', Raise (A := string) e' = Raise e''
                ∧ (Forall (λ u, readable u = true) (u :: us) → e'' = e))
    as Hstop.
  { intros Hu e'. exists e'. split; [done|]. intros Hall.
    apply Forall_inv in Hall. congruence. }
  unfold readable in Hstop.
  destruct (DeepSeekR1.update_choices u) as [|c cs]; [apply Hgo|].
  destruct (DeepSeekR1.delta c) as [d|]; [|by apply Hstop].
  destruct (DeepSeekR1.delta_content d) as [|b|z|m x|s|l|dd] eqn:Hd;
    cbn [py_truthy] in *.
  - apply Hgo.
  - destruct b; [by apply Hstop|apply Hgo].
  - destruct (negb (z =? 0)); [by apply Hstop|apply Hgo].
  - destruct (negb (m =? 0)); [by apply Hstop|apply Hgo].
  - destruct (negb (String.eqb s "")); apply Hgo.
  - destruct (negb (bool_decide (l = []))); [by apply Hstop|apply Hgo].
  - destruct (negb (bool_decide (dd = ∅))); [by apply Hstop|apply Hgo].
Qed.

(** X8.  When the stream faults after some updates have arrived, [pipe]
    returns an error envelope alone: the text collected up to there is not
    returned, and what the provider would have sent afterwards is not read.
    The envelope is that of the fault of the stream when the updates before
    it could be read. *)
Theorem stream_fault_discards_text (remote : DeepSeekR1.provider)
    (self : DeepSeekR1.Pipeline) (um mid : string) (msgs : list pyval)
    (w : world DeepSeekR1.complete_request)
    (dm : list DeepSeekR1.azure_message)
    (us : list DeepSeekR1.StreamingChatCompletionsUpdate) (e : exn)
    (rest : list (outcome DeepSeekR1.StreamingChatCompletionsUpdate)) :
  DeepSeekR1.prepare_messages msgs = Return dm →
  streams (caller_body w) = true →
  DeepSeekR1.complete_stream remote
    (DeepSeekR1.request_of self dm true
       (DeepSeekR1.filter_body (stripped (caller_body w))))
  = Return (map Return us ++ Raise e :: rest) →
  ∃ e',
    fst (DeepSeekR1.pipe remote self um mid msgs w)
    = Return (RVal (PStr (json_dumps_error (exn_str e'))))
    ∧ (Forall (λ u, readable u = true) us → e' = e).
Proof.
  intros Hp Hs Hstream. rewrite (pipe_spec _ _ _ _ _ _ _ Hp).
  rewrite Hs, Hstream. cbn [fst streaming_text].
  destruct (stream_loop_fault us e rest "") as (e' & Hrun & He').
  exists e'. by rewrite Hrun.
Qed.

Lemma stream_fault_discards_text_witness :
  ∃ e',
    fst (DeepSeekR1.pipe Sample.breaking (DeepSeekR1.init Sample.configured_env)
           "Hello" "DeepSeekR1"
           Sample.main_messages (Sample.empty_world Sample.main_body))
    = Return (RVal (PStr (json_dumps_error (exn_str e'))))
    ∧ (Forall (λ u, readable u = true)
         [Sample.update "There "; Sample.update "are "] →
       e' = Exn ServiceRequestError "connection reset").
Proof.
  apply (stream_fault_discards_text Sample.breaking
           (DeepSeekR1.init Sample.configured_env)
           "Hello" "DeepSeekR1"
           Sample.main_messages (Sample.empty_world Sample.main_body)
           [DeepSeekR1.UserMessage (PStr "How many languages are in the world?")]
           [Sample.update "There "; Sample.update "are "]
           (Exn ServiceRequestError "connection reset")
           [Return (Sample.update "7000.")]);
    vm_compute; reflexivity.
Defined.

(** X9.  When the call of [client.complete] itself faults, in either mode,
    [pipe] returns the envelope with the text of the fault, and that call is
    the only one it made of its client: [pipe] does not call again. *)
Theorem pipe_provider_fault (remote : DeepSeekR1.provider)
    (self : DeepSeekR1.Pipeline) (um mid : string) (msgs : list pyval)
    (w : world DeepSeekR1.complete_request)
    (dm : list DeepSeekR1.azure_message) (e : exn) :
  DeepSeekR1.prepare_messages msgs = Return dm →
  let req :=
    DeepSeekR1.request_of self dm (streams (caller_body w))
      (DeepSeekR1.filter_body (stripped (caller_body w))) in
  (if streams (caller_body w)
   then DeepSeekR1.complete_stream remote req = Raise e
   else DeepSeekR1.complete remote req = Raise e) →
  let out := DeepSeekR1.pipe remote self um mid msgs w in
  fst out = Return (RVal (PStr (json_dumps_error (exn_str e))))
  ∧ net_log (snd out) = net_log w ++ [req].
Proof.
  intros Hp req Hfault out. subst out req.
  rewrite (pipe_spec _ _ _ _ _ _ _ Hp). cbn [fst snd net_log].
  split; [|done].
  destruct (streams (caller_body w)); by rewrite Hfault.
Qed.

Lemma pipe_provider_fault_witness :
  fst (DeepSeekR1.pipe Sample.refusing (DeepSeekR1.init Sample.configured_env)
         "Hello" "DeepSeekR1"
         Sample.main_messages (Sample.empty_world Sample.main_body))
  = Return (RVal (PStr (json_dumps_error "401 Unauthorized"))).
Proof.
  refine (proj1 (pipe_provider_fault Sample.refusing
           (DeepSeekR1.init Sample.configured_env)
           "Hello" "DeepSeekR1"
           Sample.main_messages (Sample.empty_world Sample.main_body)
           [DeepSeekR1.UserMessage (PStr "How many languages are in the world?")]
           (Exn HttpResponseError "401 Unauthorized") _ _));
    vm_compute; reflexivity.
Defined.

(** X10.  With [stream] set, messages in order and a stream of updates the
    loop can read, [pipe] as a whole calls [client.complete] once, with
    [stream=True] and the prepared messages, and returns the concatenation
    of the fragments the provider streams. *)
Theorem pipe_streams_collected (remote : DeepSeekR1.provider)
    (self : DeepSeekR1.Pipeline) (um mid : string) (msgs : list pyval)
    (w : world DeepSeekR1.complete_request)
    (dm : list DeepSeekR1.azure_message)
    (us : list DeepSeekR1.StreamingChatCompletionsUpdate) :
  DeepSeekR1.prepare_messages msgs = Return dm →
  streams (caller_body w) = true →
  Forall (λ u, readable u = true) us →
  DeepSeekR1.complete_stream remote
    (DeepSeekR1.request_of self dm true
       (DeepSeekR1.filter_body (stripped (caller_body w))))
  = Return (map Return us) →
  let out := DeepSeekR1.pipe remote self um mid msgs w in
  fst out = Return (RVal (PStr (join (fragments us))))
  ∧ ∃ req, net_log (snd out) = net_log w ++ [req]
           ∧ DeepSeekR1.req_stream req = true
           ∧ DeepSeekR1.req_messages req = dm.
Proof.
  intros Hp Hs Hreadable Hstream out. subst out.
  rewrite (pipe_spec _ _ _ _ _ _ _ Hp).
  rewrite Hs, Hstream. cbn [fst snd net_log streaming_text].
  rewrite stream_loop_spec by done. split; [done|]. by eexists.
Qed.

Lemma pipe_streams_collected_witness :
  fst (DeepSeekR1.pipe Sample.mock (DeepSeekR1.init Sample.configured_env)
         "Hello" "DeepSeekR1" Sample.main_messages
         (Sample.empty_world Sample.main_body))
  = Return (RVal (PStr "There are about 7000.")).
Proof.
  refine (proj1 (pipe_streams_collected Sample.mock
           (DeepSeekR1.init Sample.configured_env)
           "Hello" "DeepSeekR1" Sample.main_messages
           (Sample.empty_world Sample.main_body)
           [DeepSeekR1.UserMessage (PStr "How many languages are in the world?")]
           [Sample.update "There "; Sample.update "are ";
            {| DeepSeekR1.update_choices := [] |};
            Sample.update "about "; Sample.update ""; Sample.update "7000."]
           _ _ _ _));
    first [ repeat constructor | vm_compute; reflexivity ].
Defined.

(** *** What the DeepSeekR1 pipeline sends *)

Lemma ds_allowed_not_popped (k : string) :
  k ∈ DeepSeekR1.allowed_params →
  k ≠ "user" ∧ k ≠ "chat_id" ∧ k ≠ "title" ∧ k ≠ "stream".
Proof.
  unfold DeepSeekR1.allowed_params.
  rewrite !elem_of_union, !elem_of_singleton.
  intros H. by destruct_or!; subst.
Qed.

Lemma ds_params_lookup (body : gmap string pyval) (k : string) (v : pyval) :
  DeepSeekR1.filter_body (stripped body) !! k = Some v
  ↔ k ∈ DeepSeekR1.allowed_params ∧ body !! k = Some v.
Proof.
  unfold DeepSeekR1.filter_body. rewrite map_lookup_filter_Some. cbn [fst].
  split.
  - intros [Hv Hk]. split; [done|].
    destruct (ds_allowed_not_popped k Hk) as (? & ? & ? & _).
    by rewrite stripped_lookup in Hv.
  - intros [Hk Hv]. split; [|done].
    destruct (ds_allowed_not_popped k Hk) as (? & ? & ? & _).
    by rewrite stripped_lookup.
Qed.

(** X11.  A call of [pipe] calls [client.complete] at most once, whatever
    it is given.  When it does, it is on the client as it was built (its
    endpoint and credential, not those of valves changed since) and for the
    model the valves hold at the time of the call. *)
Theorem pipe_calls_client_at_most_once (remote : DeepSeekR1.provider)
    (self : DeepSeekR1.Pipeline) (um mid : string)
    (msgs : list pyval) (w : world DeepSeekR1.complete_request) :
  ∃ calls,
    net_log (snd (DeepSeekR1.pipe remote self um mid msgs w))
    = net_log w ++ calls
    ∧ (List.length calls ≤ 1)%nat
    ∧ (List.length calls = 1%nat
       ↔ ∃ dm, DeepSeekR1.prepare_messages msgs = Return dm)
    ∧ Forall (λ req,
         DeepSeekR1.req_endpoint req = DeepSeekR1.endpoint (DeepSeekR1.client self)
         ∧ DeepSeekR1.req_credential req
           = DeepSeekR1.credential (DeepSeekR1.client self)
         ∧ DeepSeekR1.req_model req = DeepSeekR1.MODEL_ID (DeepSeekR1.valves self))
       calls.
Proof.
  destruct (DeepSeekR1.prepare_messages msgs) as [dm|e] eqn:Hp.
  - rewrite (pipe_spec _ _ _ _ _ _ _ Hp). cbn [snd net_log].
    eexists [_]. split; [done|]. split; [cbn; lia|]. split.
    + split; [by eexists|done].
    + by repeat constructor.
  - rewrite (pipe_spec_failed _ _ _ _ _ _ _ Hp). cbn [snd net_log].
    exists []. rewrite app_nil_r. split; [done|]. split; [cbn; lia|]. split.
    + split; [done|]. by intros [dm Hdm].
    + constructor.
Qed.

(** X12.  After [on_valves_updated], a call goes to the endpoint, with the
    credential and for the model that the valves hold at that time. *)
Theorem valves_update_takes_effect (remote : DeepSeekR1.provider)
    (self : DeepSeekR1.Pipeline) (um mid : string) (msgs : list pyval)
    (w : world DeepSeekR1.complete_request)
    (dm : list DeepSeekR1.azure_message) :
  DeepSeekR1.prepare_messages msgs = Return dm →
  ∃ req,
    net_log (snd (DeepSeekR1.pipe remote (DeepSeekR1.on_valves_updated self)
                    um mid msgs w))
    = net_log w ++ [req]
    ∧ DeepSeekR1.req_endpoint req
      = DeepSeekR1.AZURE_INFERENCE_ENDPOINT (DeepSeekR1.valves self)
    ∧ DeepSeekR1.req_credential req
      = DeepSeekR1.AZURE_INFERENCE_CREDENTIAL (DeepSeekR1.valves self)
    ∧ DeepSeekR1.req_model req = DeepSeekR1.MODEL_ID (DeepSeekR1.valves self).
Proof.
  intros Hp. rewrite (pipe_spec _ _ _ _ _ _ _ Hp). cbn [snd net_log].
  by eexists.
Qed.

Lemma valves_update_takes_effect_witness :
  ∃ req,
    net_log (snd (DeepSeekR1.pipe Sample.mock
                    (DeepSeekR1.on_valves_updated Sample.stale_pipeline)
                    "Hello" "DeepSeekR1" Sample.main_messages
                    (Sample.empty_world Sample.main_body)))
    = [] ++ [req]
    ∧ DeepSeekR1.req_endpoint req = "https://new".
Proof.
  destruct (valves_update_takes_effect Sample.mock Sample.stale_pipeline
              "Hello" "DeepSeekR1" Sample.main_messages
              (Sample.empty_world Sample.main_body)
              [DeepSeekR1.UserMessage (PStr "How many languages are in the world?")]
              eq_refl)
    as (req & Hlog & Hendpoint & _).
  exists req. split; [exact Hlog|exact Hendpoint].
Defined.

(** X13.  A pipeline built in an environment that sets the three variables
    sends its requests to that endpoint, with that credential, for that
    model. *)
Theorem environment_configures_requests (env : gmap string string)
    (ep key model : string)
    (remote : DeepSeekR1.provider) (um mid : string) (msgs : list pyval)
    (w : world DeepSeekR1.complete_request)
    (dm : list DeepSeekR1.azure_message) :
  env !! "AZURE_INFERENCE_ENDPOINT" = Some ep →
  env !! "AZURE_INFERENCE_CREDENTIAL" = Some key →
  env !! "MODEL_ID" = Some model →
  DeepSeekR1.prepare_messages msgs = Return dm →
  ∃ req,
    net_log (snd (DeepSeekR1.pipe remote (DeepSeekR1.init env) um mid msgs w))
    = net_log w ++ [req]
    ∧ DeepSeekR1.req_endpoint req = ep
    ∧ DeepSeekR1.req_credential req = key
    ∧ DeepSeekR1.req_model req = model.
Proof.
  intros Hep Hkey Hmodel Hp. rewrite (pipe_spec _ _ _ _ _ _ _ Hp).
  cbn [snd net_log]. eexists. split; [done|].
  cbn [DeepSeekR1.req_endpoint DeepSeekR1.req_credential DeepSeekR1.req_model
       DeepSeekR1.request_of DeepSeekR1.init DeepSeekR1.update_client
       DeepSeekR1.client DeepSeekR1.valves DeepSeekR1.endpoint
       DeepSeekR1.credential DeepSeekR1.AZURE_INFERENCE_ENDPOINT
       DeepSeekR1.AZURE_INFERENCE_CREDENTIAL DeepSeekR1.MODEL_ID].
  unfold DeepSeekR1.getenv. by rewrite Hep, Hkey, Hmodel.
Qed.

Lemma environment_configures_requests_witness :
  ∃ req,
    net_log (snd (DeepSeekR1.pipe Sample.mock
                    (DeepSeekR1.init Sample.configured_env)
                    "Hello" "DeepSeekR1" Sample.main_messages
                    (Sample.empty_world Sample.main_body)))
    = [] ++ [req]
    ∧ DeepSeekR1.req_endpoint req = "https://r1.example".
Proof.
  assert (Sample.configured_env !! "AZURE_INFERENCE_ENDPOINT"
          = Some "https://r1.example") as Hep by (vm_compute; reflexivity).
  assert (Sample.configured_env !! "AZURE_INFERENCE_CREDENTIAL" = Some "secret")
    as Hkey by (vm_compute; reflexivity).
  assert (Sample.configured_env !! "MODEL_ID" = Some "R1")
    as Hmodel by (vm_compute; reflexivity).
  destruct (environment_configures_requests Sample.configured_env
              "https://r1.example" "secret" "R1"
              Sample.mock "Hello" "DeepSeekR1" Sample.main_messages
              (Sample.empty_world Sample.main_body)
              [DeepSeekR1.UserMessage (PStr "How many languages are in the world?")]
              Hep Hkey Hmodel eq_refl)
    as (req & Hlog & Hendpoint & _).
  exists req. split; [exact Hlog|exact Hendpoint].
Defined.

(** X14.  The parameters of the request are the entries of the caller's
    body under the five allowed keys, with their values unchanged, and
    nothing else: [stream], in particular, is not among them. *)
Theorem deepseek_parameters_sent (remote : DeepSeekR1.provider)
    (self : DeepSeekR1.Pipeline) (um mid : string) (msgs : list pyval)
    (w : world DeepSeekR1.complete_request)
    (dm : list DeepSeekR1.azure_message) :
  DeepSeekR1.prepare_messages msgs = Return dm →
  ∃ req,
    net_log (snd (DeepSeekR1.pipe remote self um mid msgs w))
    = net_log w ++ [req]
    ∧ (∀ k v, DeepSeekR1.req_params req !! k = Some v
              ↔ k ∈ DeepSeekR1.allowed_params ∧ caller_body w !! k = Some v)
    ∧ DeepSeekR1.req_params req !! "stream" = None
    ∧ DeepSeekR1.req_stream req = streams (caller_body w).
Proof.
  intros Hp. rewrite (pipe_spec _ _ _ _ _ _ _ Hp). cbn [snd net_log].
  eexists. split; [done|].
  cbn [DeepSeekR1.req_params DeepSeekR1.req_stream DeepSeekR1.request_of].
  split; [apply ds_params_lookup|]. split; [|done].
  apply ds_filter_lookup_None. by vm_compute.
Qed.

Lemma deepseek_parameters_sent_witness :
  ∃ req,
    net_log (snd (DeepSeekR1.pipe Sample.mock (DeepSeekR1.init ∅)
                    "Hello" "DeepSeekR1" Sample.main_messages
                    (Sample.empty_world Sample.main_body)))
    = [] ++ [req]
    ∧ DeepSeekR1.req_params req !! "stream" = None.
Proof.
  destruct (deepseek_parameters_sent Sample.mock (DeepSeekR1.init ∅)
              "Hello" "DeepSeekR1" Sample.main_messages
              (Sample.empty_world Sample.main_body)
              [DeepSeekR1.UserMessage (PStr "How many languages are in the world?")]
              eq_refl)
    as (req & Hlog & _ & Hstream & _).
  exists req. split; [exact Hlog|exact Hstream].
Defined.

(** X15.  Filtering is idempotent in both pipelines: a mapping that was
    filtered passes the same filter unchanged. *)
Theorem filter_body_idempotent (body : gmap string pyval) :
  DeepSeekR1.filter_body (DeepSeekR1.filter_body body)
  = DeepSeekR1.filter_body body
  ∧ O1Mini.filter_body (O1Mini.filter_body body) = O1Mini.filter_body body.
Proof.
  split.
  - unfold DeepSeekR1.filter_body. apply map_eq. intros k. apply option_eq.
    intros v. rewrite !map_lookup_filter_Some. tauto.
  - unfold O1Mini.filter_body. apply map_eq. intros k. apply option_eq.
    intros v. rewrite !map_lookup_filter_Some. tauto.
Qed.

(** *** Faults and frame of the o1-mini pipeline *)

Lemma raise_for_status_error (r : O1Mini.Response) :
  400 ≤ O1Mini.status_code r < 600 →
  ∃ msg, O1Mini.raise_for_status r = Raise (Exn HTTPError msg).
Proof.
  intros [Hlo Hhi]. unfold O1Mini.raise_for_status.
  destruct (O1Mini.status_code r <? 500) eqn:H5.
  - replace (400 <=? O1Mini.status_code r) with true by (symmetry; lia).
    cbn [andb]. by eexists.
  - rewrite andb_false_r.
    replace (500 <=? O1Mini.status_code r) with true by (symmetry; lia).
    replace (O1Mini.status_code r <? 600) with true by (symmetry; lia).
    cbn [andb]. by eexists.
Qed.

Section O1Mini_more.

Variable py_str : pyval → string.
Variable requests_post : O1Mini.post_request → outcome O1Mini.Response.
Variable self : O1Mini.Pipeline.
Variables um mid : string.
Variable msgs : list pyval.
Variable w : world O1Mini.post_request.

(** The result of a call whose post was answered, in terms of the [try]
    body that follows the post. *)
Lemma o1_pipe_answered (r : O1Mini.Response) :
  remap_ok (caller_body w) = true →
  requests_post
    (O1Mini.request_of self
       (O1Mini.filter_body (remapped py_str (caller_body w))))
  = Return r →
  fst (O1Mini.pipe py_str requests_post self um mid msgs w)
  = match O1Mini.raise_for_status r with
    | Return _ =>
        if py_truthy (default PNone (caller_body w !! "stream"))
        then Return (RIter (O1Mini.iter_lines r))
        else
          match O1Mini.json r with
          | Return parsed => Return (RVal parsed)
          | Raise e =>
              if isinstance_RequestException e
              then
                if isinstance_ValueError e
                then Return (RVal (PStr
                       ("Error: " +:+ ("Request failed: " +:+ exn_str e)
                        +:+ " | Response Text: " +:+ O1Mini.text r)))
                else Raise e
              else Raise e
          end
    | Raise e =>
        if isinstance_RequestException e
        then
          match O1Mini.json r with
          | Return details =>
              Return (RVal (PStr
                ("Error: " +:+ ("Request failed: " +:+ exn_str e)
                 +:+ " | Details: " +:+ O1Mini.py_format py_str details)))
          | Raise e' =>
              if isinstance_ValueError e'
              then Return (RVal (PStr
                     ("Error: " +:+ ("Request failed: " +:+ exn_str e)
                      +:+ " | Response Text: " +:+ O1Mini.text r)))
              else Raise e'
          end
        else Raise e
    end.
Proof.
  intros Hok Hpost. unfold O1Mini.pipe, bind.
  rewrite (remap_user_spec _ _ Hok).
  unfold get_body, attempt, net_call. cbn [caller_body net_log].
  rewrite Hpost.
  unfold try_except_when, try_except, bind, lift,
    O1Mini.on_request_exception, try_except_when, try_except, bind, lift,
    ret, raise.
  rewrite o1_stream_lookup.
  destruct (O1Mini.raise_for_status r) as [[]|e].
  - destruct (py_truthy _); [done|].
    destruct (O1Mini.json r) as [v|e]; [done|].
    destruct (isinstance_RequestException e); [|done].
    by destruct (isinstance_ValueError e).
  - destruct (isinstance_RequestException e); [|done].
    destruct (O1Mini.json r) as [v|e']; [done|].
    by destruct (isinstance_ValueError e').
Qed.

End O1Mini_more.

(** X16.  When the provider answers with an error status (400 to 599), the
    o1-mini [pipe] returns an error string, in either mode: the message of
    the HTTP error followed by the details of the response when its body
    parses as JSON, and by the text of the response when it does not. *)
Theorem o1mini_http_error_reported (py_str : pyval → string)
    (requests_post : O1Mini.post_request → outcome O1Mini.Response)
    (self : O1Mini.Pipeline) (um mid : string) (msgs : list pyval)
    (w : world O1Mini.post_request) (r : O1Mini.Response) :
  remap_ok (caller_body w) = true →
  requests_post
    (O1Mini.request_of self
       (O1Mini.filter_body (remapped py_str (caller_body w))))
  = Return r →
  400 ≤ O1Mini.status_code r < 600 →
  let result := fst (O1Mini.pipe py_str requests_post self um mid msgs w) in
  ∃ msg,
    O1Mini.raise_for_status r = Raise (Exn HTTPError msg)
    ∧ (∀ details, O1Mini.json r = Return details →
       result = Return (RVal (PStr
                  ("Error: " +:+ ("Request failed: " +:+ msg)
                   +:+ " | Details: " +:+ O1Mini.py_format py_str details))))
    ∧ (∀ e, O1Mini.json r = Raise e → isinstance_ValueError e = true →
       result = Return (RVal (PStr
                  ("Error: " +:+ ("Request failed: " +:+ msg)
                   +:+ " | Response Text: " +:+ O1Mini.text r)))).
Proof.
  intros Hok Hpost Hstatus result. subst result.
  destruct (raise_for_status_error r Hstatus) as [msg Hmsg].
  exists msg. split; [done|].
  rewrite (o1_pipe_answered _ _ _ _ _ _ _ r Hok Hpost), Hmsg.
  cbn [isinstance_RequestException exn_cls exn_str]. split.
  - intros details Hd. by rewrite Hd.
  - intros e He Hv. by rewrite He, Hv.
Qed.

Lemma o1mini_http_error_reported_witness :
  fst (O1Mini.pipe Sample.sample_str
         (λ _, Return (Sample.error_response 401 (Return (PStr "bad key")) ""))
         (O1Mini.init ∅) "Hello" "o1-mini" Sample.main_messages
         (Sample.empty_world Sample.main_body))
  = Return (RVal (PStr
      "Error: Request failed: 401 Client Error: Unauthorized for url: https://xxx.openai.azure.com | Details: bad key")).
Proof.
  destruct (o1mini_http_error_reported Sample.sample_str
              (λ _, Return (Sample.error_response 401 (Return (PStr "bad key")) ""))
              (O1Mini.init ∅) "Hello" "o1-mini" Sample.main_messages
              (Sample.empty_world Sample.main_body)
              (Sample.error_response 401 (Return (PStr "bad key")) "")
              eq_refl eq_refl ltac:(cbn; lia))
    as (msg & Hmsg & Hdetails & _).
  rewrite (Hdetails (PStr "bad key") eq_refl).
  vm_compute in Hmsg. injection Hmsg as <-. vm_compute. reflexivity.
Defined.

(** X17.  When a response with a success status has a body that is not
    JSON, the blocking o1-mini [pipe] returns an error string with the text
    of the response if the fault of [json()] is a requests JSONDecodeError;
    a fault of [json()] that is no [RequestException] goes on to the
    caller. *)
Theorem o1mini_undecodable_body (py_str : pyval → string)
    (requests_post : O1Mini.post_request → outcome O1Mini.Response)
    (self : O1Mini.Pipeline) (um mid : string) (msgs : list pyval)
    (w : world O1Mini.post_request) (r : O1Mini.Response) (e : exn) :
  remap_ok (caller_body w) = true →
  requests_post
    (O1Mini.request_of self
       (O1Mini.filter_body (remapped py_str (caller_body w))))
  = Return r →
  O1Mini.raise_for_status r = Return tt →
  py_truthy (default PNone (caller_body w !! "stream")) = false →
  O1Mini.json r = Raise e →
  let result := fst (O1Mini.pipe py_str requests_post self um mid msgs w) in
  (exn_cls e = JSONDecodeError →
   result = Return (RVal (PStr
              ("Error: " +:+ ("Request failed: " +:+ exn_str e)
               +:+ " | Response Text: " +:+ O1Mini.text r))))
  ∧ (isinstance_RequestException e = false → result = Raise e).
Proof.
  intros Hok Hpost Hstatus Hstream Hjson result. subst result.
  rewrite (o1_pipe_answered _ _ _ _ _ _ _ r Hok Hpost), Hstatus, Hstream, Hjson.
  split.
  - intros Hcls. unfold isinstance_RequestException, isinstance_ValueError.
    by rewrite Hcls.
  - intros Hno. by rewrite Hno.
Qed.

Lemma o1mini_undecodable_body_witness :
  fst (O1Mini.pipe Sample.sample_str
         (λ _, Return (Sample.error_response 200
                         (Raise (Exn JSONDecodeError "Expecting value"))
                         "<html>"))
         (O1Mini.init ∅) "Hello" "o1-mini" Sample.main_messages
         (Sample.empty_world ∅))
  = Return (RVal (PStr
      "Error: Request failed: Expecting value | Response Text: <html>")).
Proof.
  refine (proj1 (o1mini_undecodable_body Sample.sample_str
           (λ _, Return (Sample.error_response 200
                           (Raise (Exn JSONDecodeError "Expecting value"))
                           "<html>"))
           (O1Mini.init ∅) "Hello" "o1-mini" Sample.main_messages
           (Sample.empty_world ∅)
           (Sample.error_response 200
              (Raise (Exn JSONDecodeError "Expecting value")) "<html>")
           (Exn JSONDecodeError "Expecting value")
           _ _ _ _ _)
         _);
    vm_compute; reflexivity.
Defined.

(** X18.  A fault of [requests.post] that is no [RequestException] is not
    handled: it reaches the caller as it is, after the one post. *)
Theorem o1mini_other_post_fault (py_str : pyval → string)
    (requests_post : O1Mini.post_request → outcome O1Mini.Response)
    (self : O1Mini.Pipeline) (um mid : string) (msgs : list pyval)
    (w : world O1Mini.post_request) (e : exn) :
  remap_ok (caller_body w) = true →
  requests_post
    (O1Mini.request_of self
       (O1Mini.filter_body (remapped py_str (caller_body w))))
  = Raise e →
  isinstance_RequestException e = false →
  fst (O1Mini.pipe py_str requests_post self um mid msgs w) = Raise e.
Proof.
  intros Hok Hpost He. unfold O1Mini.pipe, bind.
  rewrite (remap_user_spec _ _ Hok).
  unfold get_body, attempt, net_call. cbn [caller_body net_log].
  by rewrite Hpost, He.
Qed.

Lemma o1mini_other_post_fault_witness :
  fst (O1Mini.pipe Sample.sample_str
         (λ _, Raise (Exn TypeError "Object of type set is not JSON serializable"))
         (O1Mini.init ∅) "Hello" "o1-mini" Sample.main_messages
         (Sample.empty_world Sample.main_body))
  = Raise (Exn TypeError "Object of type set is not JSON serializable").
Proof.
  apply (o1mini_other_post_fault Sample.sample_str
           (λ _, Raise (Exn TypeError "Object of type set is not JSON serializable"))
           (O1Mini.init ∅) "Hello" "o1-mini" Sample.main_messages
           (Sample.empty_world Sample.main_body)
           (Exn TypeError "Object of type set is not JSON serializable"));
    reflexivity.
Defined.

Lemma remapped_id (py_str : pyval → string) (body : gmap string pyval) :
  (body !! "user" = None ∨ ∃ s, body !! "user" = Some (PStr s)) →
  remap_ok body = true ∧ remapped py_str body = body.
Proof.
  unfold remap_ok, remapped. by intros [->|[s ->]].
Qed.

(** X19.  A body without [user], or whose [user] is a string, is left as it
    is by the o1-mini [pipe], however the call ends. *)
Theorem o1mini_body_untouched (py_str : pyval → string)
    (requests_post : O1Mini.post_request → outcome O1Mini.Response)
    (self : O1Mini.Pipeline) (um mid : string) (msgs : list pyval)
    (w : world O1Mini.post_request) :
  (caller_body w !! "user" = None
   ∨ ∃ s, caller_body w !! "user" = Some (PStr s)) →
  caller_body (snd (O1Mini.pipe py_str requests_post self um mid msgs w))
  = caller_body w.
Proof.
  intros Huser. destruct (remapped_id py_str _ Huser) as [Hok Hid].
  rewrite (o1_pipe_world _ _ _ _ _ _ _ Hok). cbn [caller_body]. exact Hid.
Qed.

Lemma o1mini_body_untouched_witness :
  caller_body
    (snd (O1Mini.pipe Sample.sample_str Sample.unreachable (O1Mini.init ∅)
            "Hello" "o1-mini" Sample.main_messages
            (Sample.empty_world (<["user" := PStr "u1"]> Sample.main_body))))
  = <["user" := PStr "u1"]> Sample.main_body.
Proof.
  refine (o1mini_body_untouched Sample.sample_str Sample.unreachable
            (O1Mini.init ∅) "Hello" "o1-mini" Sample.main_messages
            (Sample.empty_world (<["user" := PStr "u1"]> Sample.main_body)) _).
  right. exists "u1". vm_compute; reflexivity.
Defined.

(** X21.  The o1-mini [pipe] posts at most once.  It posts exactly once
    when [user] is absent, a string or an object; for any other [user] it
    raises an [AttributeError] before anything is posted, and leaves the
    body as it was. *)
Theorem o1mini_posts_at_most_once (py_str : pyval → string)
    (requests_post : O1Mini.post_request → outcome O1Mini.Response)
    (self : O1Mini.Pipeline) (um mid : string) (msgs : list pyval)
    (w : world O1Mini.post_request) :
  let out := O1Mini.pipe py_str requests_post self um mid msgs w in
  (remap_ok (caller_body w) = true →
   ∃ req, net_log (snd out) = net_log w ++ [req]
          ∧ O1Mini.post_url req = O1Mini.url_of self)
  ∧ (remap_ok (caller_body w) = false →
     snd out = w ∧ ∃ msg, fst out = Raise (Exn AttributeError msg)).
Proof.
  intros out. subst out. split.
  - intros Hok. rewrite (o1_pipe_world _ _ _ _ _ _ _ Hok). cbn [net_log].
    by eexists.
  - intros Hbad.
    destruct (caller_body w !! "user") as [u|] eqn:Hu.
    + rewrite (o1_pipe_remap_fault _ _ _ _ _ _ _ u Hu Hbad). cbn [fst snd].
      split; [done|]. by eexists.
    + unfold remap_ok in Hbad. by rewrite Hu in Hbad.
Qed.

Lemma o1mini_posts_at_most_once_witness :
  snd (O1Mini.pipe Sample.sample_str Sample.unreachable (O1Mini.init ∅)
         "Hello" "o1-mini" Sample.main_messages
         (Sample.empty_world (<["user" := PNone]> Sample.main_body)))
  = Sample.empty_world (<["user" := PNone]> Sample.main_body).
Proof.
  apply (proj2 (o1mini_posts_at_most_once Sample.sample_str Sample.unreachable
                  (O1Mini.init ∅) "Hello" "o1-mini" Sample.main_messages
                  (Sample.empty_world (<["user" := PNone]> Sample.main_body)))).
  vm_compute; reflexivity.
Defined.

(** X22.  The JSON document the o1-mini [pipe] posts holds, for every key
    but [user], the entry of the caller's body when the key is on the
    allow-list, with its value unchanged, and nothing otherwise; the
    [stream] flag of the post is the [stream] entry of the body, [False]
    without one. *)
Theorem o1mini_parameters_sent (py_str : pyval → string)
    (requests_post : O1Mini.post_request → outcome O1Mini.Response)
    (self : O1Mini.Pipeline) (um mid : string) (msgs : list pyval)
    (w : world O1Mini.post_request) :
  remap_ok (caller_body w) = true →
  ∃ req,
    net_log (snd (O1Mini.pipe py_str requests_post self um mid msgs w))
    = net_log w ++ [req]
    ∧ (∀ k v, k ≠ "user" →
         (O1Mini.post_json req !! k = Some v
          ↔ k ∈ O1Mini.allowed_params ∧ caller_body w !! k = Some v))
    ∧ O1Mini.post_stream req = default (PBool false) (caller_body w !! "stream")
    ∧ O1Mini.post_headers req !! "api-key"
      = Some (O1Mini.AZURE_OPENAI_API_KEY (O1Mini.valves self)).
Proof.
  intros Hok. rewrite (o1_pipe_world _ _ _ _ _ _ _ Hok). cbn [net_log].
  eexists. split; [done|].
  cbn [O1Mini.post_json O1Mini.post_stream O1Mini.post_headers O1Mini.request_of].
  split; [|split].
  - intros k v Hk. unfold O1Mini.filter_body.
    rewrite map_lookup_filter_Some. cbn [fst].
    rewrite remapped_lookup by done. tauto.
  - by rewrite o1_stream_lookup.
  - unfold O1Mini.headers_of. by rewrite lookup_insert_eq.
Qed.

Lemma o1mini_parameters_sent_witness :
  ∃ req,
    net_log (snd (O1Mini.pipe Sample.sample_str Sample.unreachable
                    (O1Mini.init ∅) "Hello" "o1-mini" Sample.main_messages
                    (Sample.empty_world Sample.session_body)))
    = [] ++ [req]
    ∧ O1Mini.post_stream req = PBool false.
Proof.
  assert (remap_ok (caller_body (Sample.empty_world (Req := O1Mini.post_request)
                                   Sample.session_body)) = true)
    as Hok by (vm_compute; reflexivity).
  destruct (o1mini_parameters_sent Sample.sample_str Sample.unreachable
              (O1Mini.init ∅) "Hello" "o1-mini" Sample.main_messages
              (Sample.empty_world Sample.session_body) Hok)
    as (req & Hlog & _ & Hstream & _).
  exists req. split; [exact Hlog|]. rewrite Hstream. vm_compute; reflexivity.
Defined.
